(** * Landsat retrieval backend: S3 service and controller

    A shallow embedding of [src/s3/s3.service.ts] (class [S3Service]) and of
    [src/s3/s3.controller.ts] (class [S3Controller]).

    The two external collaborators, the AWS SDK client and the geotiff.js
    decoder, are not part of the repository: they are taken as section
    variables, so every theorem holds for every behaviour of the storage
    provider and of the decoder.  What the runtime refuses when a header is
    set or a value is serialized is part of the world a handler runs in,
    so every theorem holds for every such runtime as well.  Promises are modelled by a state and
    exception monad: a rejected promise is a thrown error, [await] is bind. *)

From Stdlib Require Import String Ascii List ZArith Bool Lia.
Import ListNotations.
Set Warnings "-register-all".
Open Scope string_scope.
Open Scope list_scope.

(** ** JavaScript strings *)

Module JsString.

(** The two characters the controller's regular expression talks about. *)
Definition backslash : ascii := "092"%char.
Definition slash : ascii := "047"%char.
Definition dquote : ascii := "034"%char.

(** [s.replace(/\\/g, '/')]: a global replace of a one-character pattern
    by a one-character string rewrites the string position by position. *)
Fixpoint replace_backslashes (s : string) : string :=
  match s with
  | EmptyString => EmptyString
  | String c rest =>
      String (if Ascii.eqb c backslash then slash else c)
             (replace_backslashes rest)
  end.

(** [s.split(sep)] for a one-character separator: never the empty array. *)
Fixpoint split (sep : ascii) (s : string) : list string :=
  match s with
  | EmptyString => [EmptyString]
  | String c rest =>
      if Ascii.eqb c sep then EmptyString :: split sep rest
      else match split sep rest with
           | seg :: segs => String c seg :: segs
           | [] => [String c EmptyString]
           end
  end.

(** [arr.pop()]: the last element, [undefined] on the empty array. *)
Fixpoint pop (l : list string) : option string :=
  match l with
  | [] => None
  | [x] => Some x
  | _ :: tl => pop tl
  end.

(** A value interpolated in a template literal: [undefined] prints as the
    nine letters of its name. *)
Definition interpolate (v : option string) : string :=
  match v with
  | Some s => s
  | None => "undefined"
  end.

(** Does the character occur in the string? *)
Fixpoint contains (c : ascii) (s : string) : bool :=
  match s with
  | EmptyString => false
  | String d rest => Ascii.eqb d c || contains c rest
  end.

(** The character at a position, [None] past the end. *)
Definition char_at (s : string) (i : nat) : option ascii := String.get i s.

(** [s.toLowerCase()], on the letters A to Z. *)
Definition lower (c : ascii) : ascii :=
  let n := nat_of_ascii c in
  if Nat.leb 65 n && Nat.leb n 90 then ascii_of_nat (n + 32) else c.

Fixpoint toLowerCase (s : string) : string :=
  match s with
  | EmptyString => EmptyString
  | String c rest => String (lower c) (toLowerCase rest)
  end.

End JsString.

(** ** Errors, buffers and streams *)

(** A JavaScript [Error] object, as far as the program looks at it. *)
Record JsError := mkError { name : string; message : string }.

(** A settled promise: rejected with an error, or fulfilled with a value. *)
Definition Result (A : Type) : Type := (JsError + A)%type.

(** An [ArrayBuffer] is a sequence of bytes; a Node [Buffer] is a view of
    [byteLength] bytes of one, starting at [byteOffset]. *)
Definition ArrayBuffer := list Byte.byte.

Module Buffer.

Record t := mk { buffer : ArrayBuffer; byteOffset : nat; byteLength : nat }.

(** [ab.slice(lo, hi)] on an [ArrayBuffer]. *)
Definition slice (ab : ArrayBuffer) (lo hi : nat) : ArrayBuffer :=
  firstn (hi - lo) (skipn lo ab).

(** The bytes a view shows. *)
Definition bytes (b : t) : ArrayBuffer :=
  slice (buffer b) (byteOffset b) (byteOffset b + byteLength b).

(** [Buffer.from(bytes)]: a view of the whole of a fresh [ArrayBuffer]. *)
Definition from (bs : ArrayBuffer) : t :=
  {| buffer := bs; byteOffset := 0; byteLength := length bs |}.

(** [Buffer.concat(chunks)]: a new buffer holding the chunks' bytes, in
    order.  Where in memory Node puts it (a view into a pool, at some
    offset) is not modelled: the view here starts a fresh [ArrayBuffer],
    and only [bytes] and [byteLength] of the result are meant. *)
Definition concat (chunks : list t) : t := from (flat_map bytes chunks).

End Buffer.

(** A Node [Readable] in flowing mode, seen as what it will emit: ['data']
    events, closed by ['end'] or by ['error']. *)
Inductive Readable : Type :=
| StreamEnd
| StreamError (e : JsError)
| StreamData (chunk : Buffer.t) (rest : Readable).

(** ** The AWS SDK interface (@aws-sdk/client-s3) *)

Module ListBuckets.
Record Output := { Buckets : option (list string) }.
End ListBuckets.

Module ListObjectsV2.
Record Input := {
  Bucket : string;
  Prefix : option string;
  ContinuationToken : option string;
  RequestPayer : option string
}.
Record Object := { Key : option string; Size : option Z }.
Record Output := {
  Contents : option (list Object);
  IsTruncated : option bool;
  NextContinuationToken : option string
}.
End ListObjectsV2.

Module GetObject.
Record Input := {
  Bucket : string;
  Key : string;
  RequestPayer : option string
}.
(** The service reads [response.Body as Readable]. *)
Record Output := { Body : Readable }.
End GetObject.

Inductive Command : Type :=
| ListBucketsCommand
| ListObjectsV2Command (input : ListObjectsV2.Input)
| GetObjectCommand (input : GetObject.Input).

(** The output type the SDK's typing gives to each command. *)
Definition OutputOf (c : Command) : Type :=
  match c with
  | ListBucketsCommand => ListBuckets.Output
  | ListObjectsV2Command _ => ListObjectsV2.Output
  | GetObjectCommand _ => GetObject.Output
  end.

(** The storage provider behind [s3Client.send]: any behaviour at all. *)
Record S3Client := { send : forall c : Command, Result (OutputOf c) }.

(** The requester-pays indicator of a command, if the command has one. *)
Definition request_payer (c : Command) : option string :=
  match c with
  | ListBucketsCommand => None
  | ListObjectsV2Command i => ListObjectsV2.RequestPayer i
  | GetObjectCommand i => GetObject.RequestPayer i
  end.

(** ** The decoder interface (geotiff.js) *)

(** [readRasters()] without options: one typed array per band. *)
Definition ReadRasterResult := list (list Z).

(** Objects of the library are records of the methods the service calls. *)
Record GeoTIFFImage := {
  readRasters : Result ReadRasterResult;
  getWidth : Z;
  getHeight : Z
}.

(** [getImage(index = 0)]: the image of the container at that index. *)
Record GeoTIFF := { getImage : nat -> Result GeoTIFFImage }.

Record GeoTIFFModule := { fromArrayBuffer : ArrayBuffer -> Result GeoTIFF }.

(** ** Values sent to the client *)

Inductive JsValue : Type :=
| VUndefined
| VBool (b : bool)
| VNumber (n : Z)
| VString (s : string)
| VRaster (r : ReadRasterResult)
| VArray (items : list JsValue)
| VObject (fields : list (string * JsValue)).

(** Reading a property: [undefined] when the object has none of that name. *)
Fixpoint get_field (k : string) (fields : list (string * JsValue)) : JsValue :=
  match fields with
  | [] => VUndefined
  | (k', v) :: tl => if String.eqb k k' then v else get_field k tl
  end.

Definition prop (k : string) (v : JsValue) : JsValue :=
  match v with
  | VObject fields => get_field k fields
  | _ => VUndefined
  end.

Definition is_undefined (v : JsValue) : bool :=
  match v with VUndefined => true | _ => false end.

(** [JSON.stringify] leaves out the properties whose value is [undefined]. *)
Definition serialized_fields (v : JsValue) : list (string * JsValue) :=
  match v with
  | VObject fields => filter (fun kv => negb (is_undefined (snd kv))) fields
  | _ => []
  end.

Definition of_option {A} (f : A -> JsValue) (o : option A) : JsValue :=
  match o with
  | Some a => f a
  | None => VUndefined
  end.

Definition of_object (o : ListObjectsV2.Object) : JsValue :=
  VObject [("Key", of_option VString (ListObjectsV2.Key o));
           ("Size", of_option VNumber (ListObjectsV2.Size o))].

Definition of_contents (l : list ListObjectsV2.Object) : JsValue :=
  VArray (map of_object l).

(** ** The HTTP response under construction (Express [res]) *)

Module HttpStatus.
Definition OK : Z := 200.
Definition NOT_FOUND : Z := 404.
Definition INTERNAL_SERVER_ERROR : Z := 500.
End HttpStatus.

Inductive ResponseBody : Type :=
| NotSent
| SentJson (v : JsValue)
| SentBuffer (data : Buffer.t)
| Piped (stream : Readable).

(** The status, the body, and the header fields the handlers set by
    [res.set].  The fields Express adds by itself when it sends (the
    length and the tag of the body, the content type of a JSON body) are
    not recorded. *)
Record ServerResponse := {
  statusCode : Z;
  headers : list (string * string);
  body : ResponseBody
}.

(** ** The runtime under the handlers (Node and Express) *)

(** What the runtime refuses, and with which error: [setHeader(name,
    value)] throws on a value with a character it does not allow, and
    [JSON.stringify] throws on data it cannot make a string of, which of
    the values sent here only raster data can be.  Any behaviour at all. *)
Record Runtime := {
  header_refused : string -> string -> option JsError;
  raster_refused : ReadRasterResult -> option JsError
}.

(** The raster data inside a value. *)
Fixpoint rasters_of (v : JsValue) : list ReadRasterResult :=
  match v with
  | VRaster r => [r]
  | VArray items => flat_map rasters_of items
  | VObject fields =>
      flat_map (fun kv : string * JsValue =>
                  let (_, field) := kv in rasters_of field) fields
  | _ => []
  end.

Fixpoint first_refusal (rt : Runtime) (rasters : list ReadRasterResult)
  : option JsError :=
  match rasters with
  | [] => None
  | r :: tl =>
      match raster_refused rt r with
      | Some e => Some e
      | None => first_refusal rt tl
      end
  end.

(** The error of [JSON.stringify(v)], if it throws. *)
Definition json_refusal (rt : Runtime) (v : JsValue) : option JsError :=
  first_refusal rt (rasters_of v).

(** ** Observable effects *)

Inductive Channel := LoggerLog | LoggerError | ConsoleLog | ConsoleError.

Inductive Detail : Type :=
| NoDetail
| ErrorDetail (e : JsError)
| BufferDetail (b : Buffer.t)
| RasterDetail (r : ReadRasterResult)
| DataDetail (r : ReadRasterResult) (width height : Z).

Inductive DecoderCall : Type :=
| FromArrayBuffer (ab : ArrayBuffer)
| GetImage (index : nat)
| ReadRasters
| GetWidth
| GetHeight.

Inductive Event : Type :=
| Sent (c : Command)
| Logged (ch : Channel) (msg : string) (d : Detail)
| Decoder (call : DecoderCall).

Definition is_decoder (ev : Event) : bool :=
  match ev with Decoder _ => true | _ => false end.

(** The requests issued to the storage provider, in order. *)
Fixpoint requests (tr : list Event) : list Command :=
  match tr with
  | [] => []
  | Sent c :: tl => c :: requests tl
  | _ :: tl => requests tl
  end.

(** ** The monad of asynchronous handlers *)

Record World := {
  trace : list Event;
  res : ServerResponse;
  node : Runtime
}.

Definition M (A : Type) : Type := World -> Result A * World.

Definition ret {A} (a : A) : M A := fun w => (inr a, w).

Definition throw {A} (e : JsError) : M A := fun w => (inl e, w).

Definition bind {A B} (m : M A) (k : A -> M B) : M B :=
  fun w =>
    match m w with
    | (inr a, w') => k a w'
    | (inl e, w') => (inl e, w')
    end.

(** [try { m } catch (error) { h error }] *)
Definition try_catch {A} (m : M A) (h : JsError -> M A) : M A :=
  fun w =>
    match m w with
    | (inr a, w') => (inr a, w')
    | (inl e, w') => h e w'
    end.

(** [await p] for an already settled promise [p]. *)
Definition await {A} (p : Result A) : M A := fun w => (p, w).

Definition emit (ev : Event) : M unit :=
  fun w =>
    (inr tt, {| trace := trace w ++ [ev]; res := res w; node := node w |}).

Definition update_res (f : ServerResponse -> ServerResponse) : M unit :=
  fun w =>
    (inr tt, {| trace := trace w; res := f (res w); node := node w |}).

Declare Scope js_scope.
Delimit Scope js_scope with js.
Notation "x <- m ;; k" := (bind m (fun x => k))
  (at level 61, m at next level, right associativity) : js_scope.
Notation "m ;; k" := (bind m (fun _ => k))
  (at level 61, right associativity) : js_scope.
Open Scope js_scope.

Definition log (ch : Channel) (msg : string) (d : Detail) : M unit :=
  emit (Logged ch msg d).

(** ** src/s3/s3.service.ts *)

Module S3Service.

Definition bucketName : string := "usgs-landsat".

Section Service.

(** [this.s3Client] and the imported [GeoTIFF] module. *)
Variable s3Client : S3Client.
Variable GeoTIFFLib : GeoTIFFModule.

(** [await this.s3Client.send(command)] *)
Definition s3Client_send (command : Command) : M (OutputOf command) :=
  emit (Sent command) ;;
  await (send s3Client command).

Definition verifyAWSAuthentication : M bool :=
  try_catch
    (let command := ListBucketsCommand in
     _ <- s3Client_send command ;;
     log LoggerLog "Successfully authenticated with AWS." NoDetail ;;
     ret true)
    (fun error =>
       log LoggerError "Failed to authenticate with AWS:"
           (ErrorDetail error) ;;
       ret false).

(** A default parameter value replaces [undefined], and nothing else. *)
Definition default_param (arg : option string) (dflt : string) : string :=
  match arg with
  | Some s => s
  | None => dflt
  end.

Definition listObjects (prefix continuationToken : option string)
  : M ListObjectsV2.Output :=
  let prefix := default_param prefix "collection02/" in
  try_catch
    (let command :=
       ListObjectsV2Command
         {| ListObjectsV2.Bucket := bucketName;
            ListObjectsV2.Prefix := Some prefix;
            ListObjectsV2.ContinuationToken := continuationToken;
            ListObjectsV2.RequestPayer := Some "requester" |} in
     response <- s3Client_send command ;;
     ret response)
    (fun error =>
       log LoggerError "Error listing objects from S3"
           (ErrorDetail error) ;;
       throw error).

(** The listeners of [streamToBuffer]: ['data'] pushes the chunk,
    ['end'] resolves with the concatenation, ['error'] rejects. *)
Fixpoint drain (stream : Readable) (chunks : list Buffer.t)
  : Result Buffer.t :=
  match stream with
  | StreamData chunk rest => drain rest (chunks ++ [chunk])
  | StreamEnd => inr (Buffer.concat chunks)
  | StreamError e => inl e
  end.

Definition streamToBuffer (stream : Readable) : M Buffer.t :=
  await (drain stream []).

Definition getObject (key : string) : M Buffer.t :=
  try_catch
    (let command :=
       GetObjectCommand
         {| GetObject.Bucket := bucketName;
            GetObject.Key := key;
            GetObject.RequestPayer := Some "requester" |} in
     response <- s3Client_send command ;;
     let stream := GetObject.Body response in
     streamToBuffer stream)
    (fun error =>
       log LoggerError ("Error getting object " ++ key ++ " from S3")
           (ErrorDetail error) ;;
       throw error).

Record GeoTIFFData := {
  rasterData : ReadRasterResult;
  width : Z;
  height : Z
}.

Definition getGeoTIFF (key : string) : M GeoTIFFData :=
  try_catch
    (log ConsoleLog ("Fetching GeoTIFF from S3 with key: " ++ key)
         NoDetail ;;
     buffer <- getObject key ;;
     log ConsoleLog "Retrieved Buffer:" (BufferDetail buffer) ;;
     let arrayBuffer :=
       Buffer.slice (Buffer.buffer buffer)
                    (Buffer.byteOffset buffer)
                    (Buffer.byteOffset buffer + Buffer.byteLength buffer) in
     emit (Decoder (FromArrayBuffer arrayBuffer)) ;;
     geoTiff <- await (fromArrayBuffer GeoTIFFLib arrayBuffer) ;;
     emit (Decoder (GetImage 0)) ;;
     image <- await (getImage geoTiff 0) ;;
     emit (Decoder ReadRasters) ;;
     rasterData <- await (readRasters image) ;;
     emit (Decoder GetWidth) ;;
     let width := getWidth image in
     emit (Decoder GetHeight) ;;
     let height := getHeight image in
     log ConsoleLog "Raster data:" (RasterDetail rasterData) ;;
     ret {| rasterData := rasterData; width := width; height := height |})
    (fun error =>
       log ConsoleError "Error in getGeoTIFF:" (ErrorDetail error) ;;
       throw (mkError "Error" "Could not retrieve GeoTIFF data")).

Definition getGeoTIFFStream (key : string) : M Readable :=
  try_catch
    (log LoggerLog ("Fetching GeoTIFF stream from S3 with key: " ++ key)
         NoDetail ;;
     let command :=
       GetObjectCommand
         {| GetObject.Bucket := bucketName;
            GetObject.Key := key;
            GetObject.RequestPayer := Some "requester" |} in
     response <- s3Client_send command ;;
     let stream := GetObject.Body response in
     ret stream)
    (fun error =>
       log LoggerError ("Error getting GeoTIFF stream for key: " ++ key)
           (ErrorDetail error) ;;
       throw (mkError "Error" "Could not retrieve GeoTIFF stream")).

End Service.

End S3Service.

(** ** src/s3/s3.controller.ts *)

Module S3Controller.

(** The methods of Express's [res] the handlers call. *)

(** Header names are the same whatever their case. *)
Definition same_header (k k' : string) : bool :=
  String.eqb (JsString.toLowerCase k) (JsString.toLowerCase k').

Fixpoint set_header (k v : string) (hs : list (string * string))
  : list (string * string) :=
  match hs with
  | [] => [(k, v)]
  | (k', v') :: tl =>
      if same_header k k' then (k, v) :: tl else (k', v') :: set_header k v tl
  end.

(** [res.set(name, value)]: throws what the runtime throws on the value,
    and sets nothing then. *)
Definition res_set_field (k v : string) : M unit :=
  fun w =>
    match header_refused (node w) k v with
    | Some e => (inl e, w)
    | None =>
        update_res (fun r =>
          {| statusCode := statusCode r;
             headers := set_header k v (headers r);
             body := body r |}) w
    end.

(** [res.set({...})]: the fields one by one, in the order written; the
    fields set before one that throws stay set. *)
Fixpoint res_set (fields : list (string * string)) : M unit :=
  match fields with
  | [] => ret tt
  | (k, v) :: tl => res_set_field k v ;; res_set tl
  end.

(** [res.status(code)] *)
Definition res_status (code : Z) : M unit :=
  update_res (fun r =>
    {| statusCode := code; headers := headers r; body := body r |}).

(** [res.send(data)] for a buffer: the buffer becomes the body. *)
Definition res_send (data : Buffer.t) : M unit :=
  update_res (fun r =>
    {| statusCode := statusCode r; headers := headers r;
       body := SentBuffer data |}).

(** [res.json(v)]: throws what [JSON.stringify] throws, and sends nothing
    then. *)
Definition res_json (v : JsValue) : M unit :=
  fun w =>
    match json_refusal (node w) v with
    | Some e => (inl e, w)
    | None =>
        update_res (fun r =>
          {| statusCode := statusCode r; headers := headers r;
             body := SentJson v |}) w
    end.

(** [stream.pipe(res)]: the stream becomes the body, and the handler goes
    on without waiting for it.  What the stream does after the handler has
    returned is not part of the handler's run. *)
Definition pipe (stream : Readable) : M unit :=
  update_res (fun r =>
    {| statusCode := statusCode r; headers := headers r;
       body := Piped stream |}).

(** [`...; filename="${sanitizedKey.split('/').pop()}"`] *)
Definition disposition (kind sanitizedKey : string) : string :=
  kind ++ "; filename=" ++ String JsString.dquote
    (JsString.interpolate
       (JsString.pop (JsString.split JsString.slash sanitizedKey))
     ++ String JsString.dquote EmptyString).

Section Controller.

Variable s3Client : S3Client.
Variable GeoTIFFLib : GeoTIFFModule.

Definition verifyAWS : M JsValue :=
  isAuthenticated <- S3Service.verifyAWSAuthentication s3Client ;;
  ret (VObject [("authenticated", VBool isAuthenticated)]).

Definition listObjects (prefix continuationToken : option string)
  : M JsValue :=
  let prefix := S3Service.default_param prefix "collection02/" in
  response <- S3Service.listObjects s3Client (Some prefix)
                                    continuationToken ;;
  ret (VObject
         [("contents",
           of_option of_contents (ListObjectsV2.Contents response));
          ("isTruncated",
           of_option VBool (ListObjectsV2.IsTruncated response));
          ("nextContinuationToken",
           of_option VString
             (ListObjectsV2.NextContinuationToken response))]).

Definition getObject (key : string) : M unit :=
  let sanitizedKey := JsString.replace_backslashes key in
  try_catch
    (data <- S3Service.getObject s3Client sanitizedKey ;;
     res_set [("Content-Type", "application/octet-stream");
              ("Content-Disposition",
               disposition "attachment" sanitizedKey)] ;;
     res_status HttpStatus.OK ;;
     res_send data)
    (fun error =>
       res_status HttpStatus.INTERNAL_SERVER_ERROR ;;
       res_json (VObject [("message",
                           VString "Error retrieving the object");
                          ("error", VString (message error))])).

Definition not_found (key : string) : M unit :=
  res_status HttpStatus.NOT_FOUND ;;
  res_json (VObject [("message",
                      VString ("Cannot GET /s3/get-geotiff/" ++ key));
                     ("error", VString "Not Found");
                     ("statusCode", VNumber HttpStatus.NOT_FOUND)]).

(** The [try] block of [getGeoTIFFStream]. *)
Definition getGeoTIFFStream_try (key : string) : M unit :=
  let sanitizedKey := JsString.replace_backslashes key in
  stream <- S3Service.getGeoTIFFStream s3Client sanitizedKey ;;
  res_set [("Content-Type", "image/tiff");
           ("Content-Disposition",
            disposition "inline" sanitizedKey)] ;;
  pipe stream.

Definition getGeoTIFFStream (key : string) : M unit :=
  try_catch
    (getGeoTIFFStream_try key)
    (fun error =>
       log ConsoleError ("Error fetching GeoTIFF for key: " ++ key)
           (ErrorDetail error) ;;
       not_found key).

(** The [try] block of [getGeoTIFF]. *)
Definition getGeoTIFF_try (key : string) : M unit :=
  let sanitizedKey := JsString.replace_backslashes key in
  data <- S3Service.getGeoTIFF s3Client GeoTIFFLib sanitizedKey ;;
  log ConsoleLog "GeoTIFF Data:"
      (DataDetail (S3Service.rasterData data) (S3Service.width data)
                  (S3Service.height data)) ;;
  res_status HttpStatus.OK ;;
  res_json (VObject
              [("rasterData", VRaster (S3Service.rasterData data));
               ("width", VNumber (S3Service.width data));
               ("height", VNumber (S3Service.height data))]).

Definition getGeoTIFF (key : string) : M unit :=
  try_catch
    (getGeoTIFF_try key)
    (fun error =>
       log ConsoleError ("Error fetching GeoTIFF for key: " ++ key)
           (ErrorDetail error) ;;
       not_found key).

End Controller.

End S3Controller.

(** ** Node's own checks *)

Module Node.

(** Node allows in a header value the tab and the characters U+0020 to
    U+007E and U+0080 to U+00FF.  On strings of characters below 256, the
    ones it refuses are the control characters but the tab. *)
Definition invalid_header_char (c : ascii) : bool :=
  let n := nat_of_ascii c in
  (Nat.ltb n 32 && negb (Nat.eqb n 9)) || Nat.eqb n 127.

Fixpoint has_invalid_char (value : string) : bool :=
  match value with
  | EmptyString => false
  | String c rest => invalid_header_char c || has_invalid_char rest
  end.

Definition check_header (name value : string) : option JsError :=
  if has_invalid_char value
  then Some (mkError "TypeError"
               ("Invalid character in header content ["
                  ++ String JsString.dquote name
                  ++ String JsString.dquote "]"))
  else None.

(** A runtime with room for every raster. *)
Definition runtime : Runtime :=
  {| header_refused := check_header; raster_refused := fun _ => None |}.

End Node.

(** ** The framework around the handlers (NestJS on Express) *)

Module Nest.

(** A request after routing: the route and the parameters its decorators
    extract.  A query parameter that the URL does not carry is
    [undefined]; the wildcard of a route is its parameter ['0']. *)
Inductive Request : Type :=
| GetVerify
| GetList (prefix continuationToken : option string)
| GetObject (key : string)
| GetGeoTIFFStream (key : string)
| GetGeoTIFF (key : string).

(** A handler without [@Res()]: the value it returns is sent as JSON with
    the status of a GET (200); an error it throws that is no
    [HttpException] gets the framework's default reply. *)
Definition reply (handler : M JsValue) : M unit :=
  try_catch
    (v <- handler ;;
     S3Controller.res_status HttpStatus.OK ;;
     S3Controller.res_json v)
    (fun _ =>
       S3Controller.res_status HttpStatus.INTERNAL_SERVER_ERROR ;;
       S3Controller.res_json
         (VObject [("statusCode", VNumber HttpStatus.INTERNAL_SERVER_ERROR);
                   ("message", VString "Internal server error")])).

Definition dispatch (s3Client : S3Client) (GeoTIFFLib : GeoTIFFModule)
           (req : Request) : M unit :=
  match req with
  | GetVerify => reply (S3Controller.verifyAWS s3Client)
  | GetList prefix continuationToken =>
      reply (S3Controller.listObjects s3Client prefix continuationToken)
  | GetObject key => S3Controller.getObject s3Client key
  | GetGeoTIFFStream key => S3Controller.getGeoTIFFStream s3Client key
  | GetGeoTIFF key => S3Controller.getGeoTIFF s3Client GeoTIFFLib key
  end.

(** The response object a request starts with, and the world around it. *)
Definition fresh : ServerResponse :=
  {| statusCode := 200; headers := []; body := NotSent |}.

Definition boot : World :=
  {| trace := []; res := fresh; node := Node.runtime |}.

(** Serving one request: the effects it had and the response it built. *)
Definition run (s3Client : S3Client) (GeoTIFFLib : GeoTIFFModule)
           (req : Request) : World :=
  snd (dispatch s3Client GeoTIFFLib req boot).

Definition serve (s3Client : S3Client) (GeoTIFFLib : GeoTIFFModule)
           (req : Request) : ServerResponse :=
  res (run s3Client GeoTIFFLib req).

End Nest.

(** ** Vocabulary of the statements *)

(** The world after some more events. *)
Definition record_events (w : World) (evs : list Event) : World :=
  {| trace := trace w ++ evs; res := res w; node := node w |}.

(** What a computation adds to the trace of the world it starts in. *)
Definition new_events {A} (m : M A) (w : World) : list Event :=
  skipn (length (trace w)) (trace (snd (m w))).

(** The two commands the service builds. *)
Definition list_command (prefix : string) (continuationToken : option string)
  : Command :=
  ListObjectsV2Command
    {| ListObjectsV2.Bucket := S3Service.bucketName;
       ListObjectsV2.Prefix := Some prefix;
       ListObjectsV2.ContinuationToken := continuationToken;
       ListObjectsV2.RequestPayer := Some "requester" |}.

Definition get_command (key : string) : Command :=
  GetObjectCommand
    {| GetObject.Bucket := S3Service.bucketName;
       GetObject.Key := key;
       GetObject.RequestPayer := Some "requester" |}.

(** The object key of a request to the storage provider. *)
Definition storage_key (c : Command) : option string :=
  match c with
  | GetObjectCommand i => Some (GetObject.Key i)
  | _ => None
  end.

(** The listing prefix of a request to the storage provider. *)
Definition storage_prefix (c : Command) : option string :=
  match c with
  | ListObjectsV2Command i => ListObjectsV2.Prefix i
  | _ => None
  end.

(** The error a stream ends with, if it does not end well. *)
Fixpoint stream_error (stream : Readable) : option JsError :=
  match stream with
  | StreamData _ rest => stream_error rest
  | StreamEnd => None
  | StreamError e => Some e
  end.

(** The chunks a stream emits. *)
Fixpoint stream_chunks (stream : Readable) : list Buffer.t :=
  match stream with
  | StreamData chunk rest => chunk :: stream_chunks rest
  | _ => []
  end.

(** How the storage provider fails a retrieval: it rejects the request, or
    the transfer of the body breaks. *)
Inductive provider_fails (s3Client : S3Client) (key : string) (e : JsError)
  : Prop :=
| request_rejected :
    send s3Client (get_command key) = inl e ->
    provider_fails s3Client key e
| transfer_broken (out : GetObject.Output) :
    send s3Client (get_command key) = inr out ->
    stream_error (GetObject.Body out) = Some e ->
    provider_fails s3Client key e.

(** The invariant of a listing: a continuation token is there exactly when
    the listing is truncated. *)
Definition token_matches_flag (r : ListObjectsV2.Output) : bool :=
  match ListObjectsV2.IsTruncated r, ListObjectsV2.NextContinuationToken r with
  | Some false, Some _ => false
  | Some true, None => false
  | _, _ => true
  end.

(** The same invariant, read from the JSON body of [GET /s3/list]. *)
Definition json_token_matches_flag (v : JsValue) : bool :=
  match prop "isTruncated" v with
  | VBool false => is_undefined (prop "nextContinuationToken" v)
  | VBool true => negb (is_undefined (prop "nextContinuationToken" v))
  | _ => true
  end.

(** The decoder adapter in the words of the specification: parse the
    container from the complete buffer, select the first image in it, read
    all its raster bands, report that image's width and height. *)
Definition spec_decode (GeoTIFFLib : GeoTIFFModule) (bytes : ArrayBuffer)
  : Result S3Service.GeoTIFFData :=
  match fromArrayBuffer GeoTIFFLib bytes with
  | inl e => inl e
  | inr container =>
      match getImage container 0 with
      | inl e => inl e
      | inr first =>
          match readRasters first with
          | inl e => inl e
          | inr bands =>
              inr {| S3Service.rasterData := bands;
                     S3Service.width := getWidth first;
                     S3Service.height := getHeight first |}
          end
      end
  end.

(** The calls a complete decoding makes, in order. *)
Definition decoding (bytes : ArrayBuffer) : list Event :=
  [Decoder (FromArrayBuffer bytes); Decoder (GetImage 0); Decoder ReadRasters;
   Decoder GetWidth; Decoder GetHeight].

(** What both raster operations throw in place of the error they caught. *)
Definition masked (what : string) : JsError :=
  mkError "Error" ("Could not retrieve GeoTIFF " ++ what).

(** The body of the 404 the raster routes answer with. *)
Definition not_found_body (key : string) : JsValue :=
  VObject [("message", VString ("Cannot GET /s3/get-geotiff/" ++ key));
           ("error", VString "Not Found");
           ("statusCode", VNumber 404)].

(** The decoder calls the service gets to make on a buffer: all of
    [decoding], or the part of it up to the call that fails. *)
Definition decoder_calls (GeoTIFFLib : GeoTIFFModule) (bytes : ArrayBuffer)
  : list Event :=
  match fromArrayBuffer GeoTIFFLib bytes with
  | inl _ => firstn 1 (decoding bytes)
  | inr container =>
      match getImage container 0 with
      | inl _ => firstn 2 (decoding bytes)
      | inr first =>
          match readRasters first with
          | inl _ => firstn 3 (decoding bytes)
          | inr _ => decoding bytes
          end
      end
  end.

(** The world with another response in place of its own. *)
Definition with_res (w : World) (r : ServerResponse) : World :=
  {| trace := trace w; res := r; node := node w |}.

(** The response with one more header set. *)
Definition put_header (k v : string) (r : ServerResponse) : ServerResponse :=
  {| statusCode := statusCode r;
     headers := S3Controller.set_header k v (headers r);
     body := body r |}.

(** The response with another status. *)
Definition put_status (code : Z) (r : ServerResponse) : ServerResponse :=
  {| statusCode := code; headers := headers r; body := body r |}.

(** The responses the handlers build on the response [r] they are given. *)
Definition retrieval_error (r : ServerResponse) (e : JsError)
  : ServerResponse :=
  {| statusCode := 500;
     headers := headers r;
     body := SentJson (VObject [("message",
                                 VString "Error retrieving the object");
                                ("error", VString (message e))]) |}.

Definition not_found_response (r : ServerResponse) (key : string)
  : ServerResponse :=
  {| statusCode := 404; headers := headers r;
     body := SentJson (not_found_body key) |}.

(** The world after the [catch] block of both raster routes. *)
Definition raster_catch (key : string) (e : JsError) (w1 : World) : World :=
  let w2 :=
    record_events w1
      [Logged ConsoleError ("Error fetching GeoTIFF for key: " ++ key)
              (ErrorDetail e)] in
  with_res w2 (not_found_response (res w2) key).

Definition raster (r : ServerResponse) (data : S3Service.GeoTIFFData)
  : ServerResponse :=
  {| statusCode := 200; headers := headers r;
     body := SentJson
               (VObject
                  [("rasterData", VRaster (S3Service.rasterData data));
                   ("width", VNumber (S3Service.width data));
                   ("height", VNumber (S3Service.height data))]) |}.

Definition listing_body (response : ListObjectsV2.Output) : JsValue :=
  VObject
    [("contents", of_option of_contents (ListObjectsV2.Contents response));
     ("isTruncated", of_option VBool (ListObjectsV2.IsTruncated response));
     ("nextContinuationToken",
      of_option VString (ListObjectsV2.NextContinuationToken response))].

(** ** Vocabulary of the further properties *)

(** [res.get(name)]: the header of that name, in any case of its letters,
    if one is set. *)
Fixpoint get_header (k : string) (hs : list (string * string))
  : option string :=
  match hs with
  | [] => None
  | (k', v) :: tl =>
      if S3Controller.same_header k k' then Some v else get_header k tl
  end.

(** The file name both download routes put in [Content-Disposition]:
    [sanitizedKey.split('/').pop()], interpolated. *)
Definition basename (sanitizedKey : string) : string :=
  JsString.interpolate
    (JsString.pop (JsString.split JsString.slash sanitizedKey)).

(** What is left of a string after its last slash. *)
Fixpoint after_last_slash (s : string) : string :=
  match s with
  | EmptyString => EmptyString
  | String _ rest =>
      if JsString.contains JsString.slash s then after_last_slash rest else s
  end.

(** The bucket and the continuation token of a request. *)
Definition storage_bucket (c : Command) : option string :=
  match c with
  | ListBucketsCommand => None
  | ListObjectsV2Command i => Some (ListObjectsV2.Bucket i)
  | GetObjectCommand i => Some (GetObject.Bucket i)
  end.

Definition storage_token (c : Command) : option string :=
  match c with
  | ListObjectsV2Command i => ListObjectsV2.ContinuationToken i
  | _ => None
  end.

(** A view that lies within its [ArrayBuffer]. *)
Definition in_bounds (b : Buffer.t) : Prop :=
  Buffer.byteOffset b + Buffer.byteLength b <= length (Buffer.buffer b).

(** What the provider makes of a retrieval: the error of the request or of
    the transfer, or the chunks of the body in one buffer. *)
Definition fetch_outcome (s3Client : S3Client) (key : string)
  : Result Buffer.t :=
  match send s3Client (get_command key) with
  | inl e => inl e
  | inr response =>
      match stream_error (GetObject.Body response) with
      | Some e => inl e
      | None => inr (Buffer.concat (stream_chunks (GetObject.Body response)))
      end
  end.

(** The lines written to an error channel. *)
Definition is_error_line (ev : Event) : bool :=
  match ev with
  | Logged LoggerError _ _ | Logged ConsoleError _ _ => true
  | _ => false
  end.

(** Why a decoding fetch fails, if it does: the error of the retrieval, or
    else the error of the first decoder call that fails. *)
Definition failure_cause (s3Client : S3Client) (GeoTIFFLib : GeoTIFFModule)
           (key : string) : option JsError :=
  match fetch_outcome s3Client key with
  | inl e => Some e
  | inr buffer =>
      match spec_decode GeoTIFFLib (Buffer.bytes buffer) with
      | inl e => Some e
      | inr _ => None
      end
  end.

(** ** Sample collaborators *)

Module Sample.

Definition no_such_key : JsError :=
  mkError "NoSuchKey" "The specified key does not exist.".

Definition invalid_token : JsError :=
  mkError "InvalidAccessKeyId"
          "The AWS Access Key Id you provided does not exist in our records.".

(** A provider that rejects every request with the same error. *)
Definition rejecting (e : JsError) : S3Client :=
  {| send := fun c => inl e |}.

(** A provider that answers every listing with [page] and every retrieval
    with the stream [object]. *)
Definition answering (page : ListObjectsV2.Output) (object : Readable)
  : S3Client :=
  {| send := fun c =>
       match c return Result (OutputOf c) with
       | ListBucketsCommand =>
           inr {| ListBuckets.Buckets := Some [S3Service.bucketName] |}
       | ListObjectsV2Command _ => inr page
       | GetObjectCommand _ => inr {| GetObject.Body := object |}
       end |}.

(** A last page as the provider sends it. *)
Definition last_page : ListObjectsV2.Output :=
{| ListObjectsV2.Contents := None;
   ListObjectsV2.IsTruncated := Some false;
   ListObjectsV2.NextContinuationToken := None |}.

Definition full_page : ListObjectsV2.Output :=
  {| ListObjectsV2.Contents :=
       Some [{| ListObjectsV2.Key := Some "collection02/catalog.json";
                ListObjectsV2.Size := Some 1024%Z |}];
     ListObjectsV2.IsTruncated := Some true;
     ListObjectsV2.NextContinuationToken := Some "1ueGcxLPRx1Tr" |}.

Definition two_bytes : Buffer.t := Buffer.from [Byte.x49; Byte.x49].

Definition object : Readable := StreamData two_bytes StreamEnd.

Definition broken : Readable :=
  StreamData two_bytes (StreamError (mkError "Error" "aborted")).

Definition image : GeoTIFFImage :=
  {| readRasters := inr [[1; 2; 3; 4; 5; 6]%Z];
     getWidth := 3; getHeight := 2 |}.

(** A decoder that finds [image] first in every container. *)
Definition decoder : GeoTIFFModule :=
  {| fromArrayBuffer := fun _ =>
       inr {| getImage := fun index =>
                match index with
                | O => inr image
                | S _ => inl (mkError "GeoTIFFImageIndexError"
                                      "No image at index")
                end |} |}.

(** A decoder that rejects every buffer. *)
Definition no_decoder : GeoTIFFModule :=
  {| fromArrayBuffer := fun _ =>
       inl (mkError "TypeError" "Invalid byte order value.") |}.

Definition windows_key : string :=
  "collection02" ++ String JsString.backslash "foo.tif".

(** A key whose file name holds a line feed. *)
Definition newline_key : string :=
  "collection02" ++ String JsString.backslash
    ("a" ++ String "010"%char "b.tif").

(** A world whose runtime cannot make a string of any raster. *)
Definition out_of_room : World :=
  {| trace := [];
     res := {| statusCode := 200; headers := []; body := NotSent |};
     node := {| header_refused := Node.check_header;
                raster_refused := fun _ =>
                  Some (mkError "RangeError" "Invalid string length") |} |}.

End Sample.

(** * Properties *)

(** ** Strings *)

Section Strings.

Import JsString.

Lemma replace_backslashes_length (s : string) :
  String.length (replace_backslashes s) = String.length s.
Proof. induction s as [|c s IH]; cbn; [reflexivity | now rewrite IH]. Qed.

Lemma replace_backslashes_char (s : string) (i : nat) :
  char_at (replace_backslashes s) i
  = option_map (fun c => if Ascii.eqb c backslash then slash else c)
               (char_at s i).
Proof.
  unfold char_at. revert i.
  induction s as [|c s IH]; intros [|i]; cbn; auto.
Qed.

Lemma replace_backslashes_clean (s : string) :
  contains backslash (replace_backslashes s) = false.
Proof.
  induction s as [|c s IH]; cbn; [reflexivity|].
  rewrite IH, orb_false_r.
  destruct (Ascii.eqb c backslash) eqn:E; [reflexivity | exact E].
Qed.

Lemma replace_backslashes_fixed (s : string) :
  contains backslash s = false -> replace_backslashes s = s.
Proof.
  induction s as [|c s IH]; cbn; [reflexivity|].
  intros H. apply orb_false_iff in H as [Hc Hs].
  now rewrite Hc, IH.
Qed.

Lemma replace_backslashes_idempotent (s : string) :
  replace_backslashes (replace_backslashes s) = replace_backslashes s.
Proof.
  apply replace_backslashes_fixed, replace_backslashes_clean.
Qed.

Lemma split_nonempty (sep : ascii) (s : string) : split sep s <> [].
Proof.
  induction s as [|c s IH]; cbn; [discriminate|].
  destruct (Ascii.eqb c sep); [discriminate|].
  destruct (split sep s); discriminate.
Qed.

Lemma pop_defined (l : list string) : l <> [] -> pop l <> None.
Proof.
  induction l as [|x [|y l] IH]; cbn; intros H; try congruence.
  apply IH. discriminate.
Qed.

(** The file name of a [Content-Disposition] is always a segment of the
key, never the word [undefined]. *)
Lemma basename_defined (s : string) :
  exists name, pop (split slash s) = Some name.
Proof.
  destruct (pop (split slash s)) as [name|] eqn:E; [now exists name|].
  now apply pop_defined in E; [|apply split_nonempty].
Qed.

End Strings.

(** ** Running the monad *)

Lemma record_events_app (w : World) (a b : list Event) :
  record_events (record_events w a) b = record_events w (a ++ b).
Proof. unfold record_events. cbn. now rewrite app_assoc. Qed.

Lemma emit_run (ev : Event) (w : World) :
  emit ev w = (inr tt, record_events w [ev]).
Proof. reflexivity. Qed.

Lemma skipn_own_length {A} (l more : list A) :
  skipn (length l) (l ++ more) = more.
Proof. induction l; cbn; auto. Qed.

Lemma new_events_recorded {A} (m : M A) (w : World) (r : Result A)
      (evs : list Event) :
  m w = (r, record_events w evs) -> new_events m w = evs.
Proof.
  intros H. unfold new_events. rewrite H. cbn. apply skipn_own_length.
Qed.

Lemma requests_app (a b : list Event) :
  requests (a ++ b) = requests a ++ requests b.
Proof.
  induction a as [|[c|ch msg d|call] a IH]; cbn; auto. now rewrite IH.
Qed.

Lemma decoder_free_app (a b : list Event) :
  filter is_decoder (a ++ b) = filter is_decoder a ++ filter is_decoder b.
Proof. apply filter_app. Qed.

(** Unfolds a handler down to the events it records. *)
Ltac run_monad :=
  unfold try_catch, bind, ret, throw, await, log, update_res;
  cbn beta iota;
  rewrite ?emit_run.

Ltac same_world :=
  unfold record_events; cbn; rewrite <- ?app_assoc; reflexivity.

(** ** What each service operation does, outcome by outcome *)

Section ServiceRuns.

Variable s3Client : S3Client.
Variable GeoTIFFLib : GeoTIFFModule.

Lemma drain_outcome (stream : Readable) (chunks : list Buffer.t) :
  S3Service.drain stream chunks
  = match stream_error stream with
    | Some e => inl e
    | None => inr (Buffer.concat (chunks ++ stream_chunks stream))
    end.
Proof.
  revert chunks.
  induction stream as [|e|chunk rest IH]; intros chunks; cbn.
  - now rewrite app_nil_r.
  - reflexivity.
  - rewrite IH. destruct (stream_error rest); [reflexivity|].
    now rewrite <- app_assoc.
Qed.

Lemma verifyAWSAuthentication_run (w : World) :
  S3Service.verifyAWSAuthentication s3Client w
  = match send s3Client ListBucketsCommand with
    | inr _ =>
        (inr true,
         record_events w
           [Sent ListBucketsCommand;
            Logged LoggerLog "Successfully authenticated with AWS."
                   NoDetail])
    | inl e =>
        (inr false,
         record_events w
           [Sent ListBucketsCommand;
            Logged LoggerError "Failed to authenticate with AWS:"
                   (ErrorDetail e)])
    end.
Proof.
  unfold S3Service.verifyAWSAuthentication, S3Service.s3Client_send.
  run_monad.
  destruct (send s3Client ListBucketsCommand) as [e|out];
    f_equal; same_world.
Qed.

Lemma listObjects_run (prefix continuationToken : option string)
      (w : World) :
  let command :=
    list_command (S3Service.default_param prefix "collection02/")
                 continuationToken in
  S3Service.listObjects s3Client prefix continuationToken w
  = match send s3Client command with
    | inr response => (inr response, record_events w [Sent command])
    | inl e =>
        (inl e,
         record_events w
           [Sent command;
            Logged LoggerError "Error listing objects from S3"
                   (ErrorDetail e)])
    end.
Proof.
  unfold S3Service.listObjects, S3Service.s3Client_send, list_command.
  run_monad.
  match goal with |- context [send s3Client ?c] =>
    destruct (send s3Client c) as [e|out] end;
    f_equal; same_world.
Qed.

Lemma getObject_run (key : string) (w : World) :
  S3Service.getObject s3Client key w
  = match send s3Client (get_command key) with
    | inr response =>
        match stream_error (GetObject.Body response) with
        | None =>
            (inr (Buffer.concat (stream_chunks (GetObject.Body response))),
             record_events w [Sent (get_command key)])
        | Some e =>
            (inl e,
             record_events w
               [Sent (get_command key);
                Logged LoggerError
                       ("Error getting object " ++ key ++ " from S3")
                       (ErrorDetail e)])
        end
    | inl e =>
        (inl e,
         record_events w
           [Sent (get_command key);
            Logged LoggerError
                   ("Error getting object " ++ key ++ " from S3")
                   (ErrorDetail e)])
    end.
Proof.
  unfold S3Service.getObject, S3Service.s3Client_send,
    S3Service.streamToBuffer, get_command.
  run_monad.
  match goal with |- context [send s3Client ?c] =>
    destruct (send s3Client c) as [e|out] end.
  - f_equal; same_world.
  - rewrite drain_outcome. cbn [app].
    destruct (stream_error (GetObject.Body out)); f_equal; same_world.
Qed.

Lemma getGeoTIFFStream_run (key : string) (w : World) :
  let fetching :=
    Logged LoggerLog ("Fetching GeoTIFF stream from S3 with key: " ++ key)
           NoDetail in
  S3Service.getGeoTIFFStream s3Client key w
  = match send s3Client (get_command key) with
    | inr response =>
        (inr (GetObject.Body response),
         record_events w [fetching; Sent (get_command key)])
    | inl e =>
        (inl (masked "stream"),
         record_events w
           [fetching; Sent (get_command key);
            Logged LoggerError
                   ("Error getting GeoTIFF stream for key: " ++ key)
                   (ErrorDetail e)])
    end.
Proof.
  unfold S3Service.getGeoTIFFStream, S3Service.s3Client_send, get_command.
  run_monad.
  match goal with |- context [send s3Client ?c] =>
    destruct (send s3Client c) as [e|out] end;
    f_equal; same_world.
Qed.

End ServiceRuns.

Section DecodeRuns.

Variable s3Client : S3Client.
Variable GeoTIFFLib : GeoTIFFModule.

Lemma getGeoTIFF_run (key : string) (w : World) :
  let fetching :=
    Logged ConsoleLog ("Fetching GeoTIFF from S3 with key: " ++ key)
           NoDetail in
  let caught e := Logged ConsoleError "Error in getGeoTIFF:" (ErrorDetail e) in
  S3Service.getGeoTIFF s3Client GeoTIFFLib key w
  = match S3Service.getObject s3Client key (record_events w [fetching]) with
    | (inl e, w1) => (inl (masked "data"), record_events w1 [caught e])
    | (inr buffer, w1) =>
        let retrieved :=
          Logged ConsoleLog "Retrieved Buffer:" (BufferDetail buffer) in
        let calls := decoder_calls GeoTIFFLib (Buffer.bytes buffer) in
        match spec_decode GeoTIFFLib (Buffer.bytes buffer) with
        | inr data =>
            (inr data,
             record_events w1
               (retrieved :: calls
                ++ [Logged ConsoleLog "Raster data:"
                           (RasterDetail (S3Service.rasterData data))]))
        | inl e =>
            (inl (masked "data"),
             record_events w1 (retrieved :: calls ++ [caught e]))
        end
    end.
Proof.
  cbv zeta.
  unfold S3Service.getGeoTIFF.
  unfold try_catch at 1. unfold bind at 1. rewrite emit_run || unfold log.
  rewrite ?emit_run.
  unfold bind at 1.
  destruct (S3Service.getObject s3Client key _) as [[e|buffer] w1].
  - run_monad. f_equal.
  - unfold spec_decode, decoder_calls, Buffer.bytes. run_monad.
    destruct (fromArrayBuffer GeoTIFFLib _) as [e|container];
      [f_equal; same_world|].
    destruct (getImage container 0) as [e|first]; [f_equal; same_world|].
    destruct (readRasters first) as [e|bands]; f_equal; same_world.
Qed.

End DecodeRuns.

(** ** What the response methods do *)

Lemma res_set_field_run (k v : string) (w : World) :
  S3Controller.res_set_field k v w
  = match header_refused (node w) k v with
    | Some e => (inl e, w)
    | None => (inr tt, with_res w (put_header k v (res w)))
    end.
Proof.
  unfold S3Controller.res_set_field.
  destruct (header_refused (node w) k v); reflexivity.
Qed.

Lemma res_set_two (k1 v1 k2 v2 : string) (w : World) :
  S3Controller.res_set [(k1, v1); (k2, v2)] w
  = match header_refused (node w) k1 v1 with
    | Some e => (inl e, w)
    | None =>
        match header_refused (node w) k2 v2 with
        | Some e => (inl e, with_res w (put_header k1 v1 (res w)))
        | None =>
            (inr tt,
             with_res w (put_header k2 v2 (put_header k1 v1 (res w))))
        end
    end.
Proof.
  cbn [S3Controller.res_set]. unfold bind at 1. rewrite res_set_field_run.
  destruct (header_refused (node w) k1 v1); [reflexivity|].
  unfold bind at 1. rewrite res_set_field_run. cbn [node with_res].
  destruct (header_refused (node w) k2 v2); reflexivity.
Qed.

Lemma res_json_run (v : JsValue) (w : World) :
  S3Controller.res_json v w
  = match json_refusal (node w) v with
    | Some e => (inl e, w)
    | None =>
        (inr tt,
         with_res w {| statusCode := statusCode (res w);
                       headers := headers (res w);
                       body := SentJson v |})
    end.
Proof.
  unfold S3Controller.res_json.
  destruct (json_refusal (node w) v); reflexivity.
Qed.

(** ** What each handler does, outcome by outcome *)

Section ControllerRuns.

Variable s3Client : S3Client.
Variable GeoTIFFLib : GeoTIFFModule.

Lemma getObject_handler_run (key : string) (w : World) :
  let sanitizedKey := JsString.replace_backslashes key in
  S3Controller.getObject s3Client key w
  = match S3Service.getObject s3Client sanitizedKey w with
    | (inr data, w1) =>
        match S3Controller.res_set
                [("Content-Type", "application/octet-stream");
                 ("Content-Disposition",
                  S3Controller.disposition "attachment" sanitizedKey)] w1
        with
        | (inr _, w2) =>
            (inr tt,
             with_res w2 {| statusCode := 200; headers := headers (res w2);
                            body := SentBuffer data |})
        | (inl e, w2) => (inr tt, with_res w2 (retrieval_error (res w2) e))
        end
    | (inl e, w1) => (inr tt, with_res w1 (retrieval_error (res w1) e))
    end.
Proof.
  cbv zeta. unfold S3Controller.getObject.
  unfold try_catch at 1. unfold bind at 1.
  destruct (S3Service.getObject s3Client _ w) as [[e|data] w1];
    [reflexivity|].
  unfold bind at 1.
  destruct (S3Controller.res_set _ w1) as [[e|[]] w2]; reflexivity.
Qed.

Lemma getGeoTIFFStream_try_run (key : string) (w : World) :
  let sanitizedKey := JsString.replace_backslashes key in
  S3Controller.getGeoTIFFStream_try s3Client key w
  = match S3Service.getGeoTIFFStream s3Client sanitizedKey w with
    | (inr stream, w1) =>
        match S3Controller.res_set
                [("Content-Type", "image/tiff");
                 ("Content-Disposition",
                  S3Controller.disposition "inline" sanitizedKey)] w1
        with
        | (inr _, w2) =>
            (inr tt,
             with_res w2 {| statusCode := statusCode (res w2);
                            headers := headers (res w2);
                            body := Piped stream |})
        | (inl e, w2) => (inl e, w2)
        end
    | (inl e, w1) => (inl e, w1)
    end.
Proof.
  cbv zeta. unfold S3Controller.getGeoTIFFStream_try.
  unfold bind at 1.
  destruct (S3Service.getGeoTIFFStream s3Client _ w) as [[e|stream] w1];
    [reflexivity|].
  unfold bind at 1.
  destruct (S3Controller.res_set _ w1) as [[e|[]] w2]; reflexivity.
Qed.

Lemma getGeoTIFF_try_run (key : string) (w : World) :
  let sanitizedKey := JsString.replace_backslashes key in
  S3Controller.getGeoTIFF_try s3Client GeoTIFFLib key w
  = match S3Service.getGeoTIFF s3Client GeoTIFFLib sanitizedKey w with
    | (inr data, w1) =>
        let w2 :=
          with_res
            (record_events w1
               [Logged ConsoleLog "GeoTIFF Data:"
                       (DataDetail (S3Service.rasterData data)
                                   (S3Service.width data)
                                   (S3Service.height data))])
            (put_status 200 (res w1)) in
        match raster_refused (node w1) (S3Service.rasterData data) with
        | Some e => (inl e, w2)
        | None => (inr tt, with_res w2 (raster (res w2) data))
        end
    | (inl e, w1) => (inl e, w1)
    end.
Proof.
  cbv zeta. unfold S3Controller.getGeoTIFF_try.
  unfold bind at 1.
  destruct (S3Service.getGeoTIFF s3Client GeoTIFFLib _ w) as [[e|data] w1];
    [reflexivity|].
  unfold bind, log, S3Controller.res_status, update_res.
  rewrite emit_run, res_json_run.
  unfold json_refusal. cbn [rasters_of flat_map app first_refusal
                            record_events node].
  destruct (raster_refused (node w1) (S3Service.rasterData data));
    reflexivity.
Qed.

Lemma getGeoTIFFStream_handler_run (key : string) (w : World) :
  S3Controller.getGeoTIFFStream s3Client key w
  = match S3Controller.getGeoTIFFStream_try s3Client key w with
    | (inr _, w1) => (inr tt, w1)
    | (inl e, w1) => (inr tt, raster_catch key e w1)
    end.
Proof.
  unfold S3Controller.getGeoTIFFStream. unfold try_catch at 1.
  destruct (S3Controller.getGeoTIFFStream_try s3Client key w)
    as [[e|[]] w1]; reflexivity.
Qed.

Lemma getGeoTIFF_handler_run (key : string) (w : World) :
  S3Controller.getGeoTIFF s3Client GeoTIFFLib key w
  = match S3Controller.getGeoTIFF_try s3Client GeoTIFFLib key w with
    | (inr _, w1) => (inr tt, w1)
    | (inl e, w1) => (inr tt, raster_catch key e w1)
    end.
Proof.
  unfold S3Controller.getGeoTIFF. unfold try_catch at 1.
  destruct (S3Controller.getGeoTIFF_try s3Client GeoTIFFLib key w)
    as [[e|[]] w1]; reflexivity.
Qed.

Lemma listObjects_handler_run (prefix continuationToken : option string)
      (w : World) :
  S3Controller.listObjects s3Client prefix continuationToken w
  = match S3Service.listObjects s3Client prefix continuationToken w with
    | (inr response, w1) => (inr (listing_body response), w1)
    | (inl e, w1) => (inl e, w1)
    end.
Proof.
  unfold S3Controller.listObjects. unfold bind at 1.
  rewrite !listObjects_run. cbv zeta.
  destruct prefix as [p|]; cbn [S3Service.default_param];
    destruct (send s3Client _) as [e|response]; reflexivity.
Qed.

Lemma reply_run (handler : M JsValue) (w : World) :
  Nest.reply handler w
  = match handler w with
    | (inr v, w1) =>
        match json_refusal (node w1) v with
        | None =>
            (inr tt,
             with_res w1 {| statusCode := 200; headers := headers (res w1);
                            body := SentJson v |})
        | Some _ =>
            (inr tt,
             with_res w1
               {| statusCode := 500; headers := headers (res w1);
                  body := SentJson
                            (VObject [("statusCode", VNumber 500);
                                      ("message",
                                       VString "Internal server error")]) |})
        end
    | (inl e, w1) =>
        (inr tt,
         with_res w1
           {| statusCode := 500; headers := headers (res w1);
              body := SentJson
                        (VObject [("statusCode", VNumber 500);
                                  ("message",
                                   VString "Internal server error")]) |})
    end.
Proof.
  unfold Nest.reply. unfold try_catch at 1. unfold bind at 1.
  destruct (handler w) as [[e|v] w1]; [reflexivity|].
  unfold bind, S3Controller.res_status, update_res. rewrite res_json_run.
  cbn [node]. destruct (json_refusal (node w1) v); reflexivity.
Qed.

End ControllerRuns.

(** ** What the service operations add to the trace *)

Section Effects.

Variable s3Client : S3Client.
Variable GeoTIFFLib : GeoTIFFModule.

Lemma getObject_effects (key : string) (w : World) :
  exists evs,
    snd (S3Service.getObject s3Client key w) = record_events w evs
    /\ requests evs = [get_command key]
    /\ filter is_decoder evs = [].
Proof.
  rewrite getObject_run.
  destruct (send s3Client (get_command key)) as [e|out];
    [|destruct (stream_error (GetObject.Body out))];
    eexists; (split; [reflexivity|split; reflexivity]).
Qed.

Lemma getGeoTIFFStream_effects (key : string) (w : World) :
  exists evs,
    snd (S3Service.getGeoTIFFStream s3Client key w) = record_events w evs
    /\ requests evs = [get_command key]
    /\ filter is_decoder evs = [].
Proof.
  rewrite getGeoTIFFStream_run. cbv zeta.
  destruct (send s3Client (get_command key)) as [e|out];
    eexists; (split; [reflexivity|split; reflexivity]).
Qed.

Lemma listObjects_effects (prefix continuationToken : option string)
      (w : World) :
  exists evs,
    snd (S3Service.listObjects s3Client prefix continuationToken w)
    = record_events w evs
    /\ requests evs
       = [list_command (S3Service.default_param prefix "collection02/")
                       continuationToken].
Proof.
  rewrite listObjects_run. cbv zeta.
  destruct (send s3Client _) as [e|out];
    eexists; (split; [reflexivity|reflexivity]).
Qed.

Lemma decoder_calls_no_request (bytes : ArrayBuffer) :
  requests (decoder_calls GeoTIFFLib bytes) = [].
Proof.
  unfold decoder_calls.
  destruct (fromArrayBuffer GeoTIFFLib bytes) as [e|container];
    [reflexivity|].
  destruct (getImage container 0) as [e|first]; [reflexivity|].
  destruct (readRasters first); reflexivity.
Qed.

Lemma decoder_calls_all_decoder (bytes : ArrayBuffer) :
  filter is_decoder (decoder_calls GeoTIFFLib bytes)
  = decoder_calls GeoTIFFLib bytes.
Proof.
  unfold decoder_calls.
  destruct (fromArrayBuffer GeoTIFFLib bytes) as [e|container];
    [reflexivity|].
  destruct (getImage container 0) as [e|first]; [reflexivity|].
  destruct (readRasters first); reflexivity.
Qed.

Lemma getGeoTIFF_effects (key : string) (w : World) :
  exists evs,
    snd (S3Service.getGeoTIFF s3Client GeoTIFFLib key w)
    = record_events w evs
    /\ requests evs = [get_command key].
Proof.
  rewrite getGeoTIFF_run. cbv zeta.
  destruct (getObject_effects key
              (record_events w
                 [Logged ConsoleLog
                         ("Fetching GeoTIFF from S3 with key: " ++ key)
                         NoDetail])) as (evs & Hw & Hreq & _).
  destruct (S3Service.getObject s3Client key _) as [[e|buffer] w1];
    cbn [snd] in Hw; subst w1.
  - eexists. split; [cbn [snd]; rewrite !record_events_app; reflexivity|].
    rewrite !requests_app, Hreq. reflexivity.
  - destruct (spec_decode GeoTIFFLib (Buffer.bytes buffer)) as [e|data];
      (eexists; split;
       [cbn [snd]; rewrite !record_events_app; reflexivity|]);
      rewrite !requests_app; cbn [requests];
      rewrite !requests_app, Hreq, decoder_calls_no_request; reflexivity.
Qed.

End Effects.

(** ** The requests each handler issues *)

Lemma new_events_of_trace {A} (m : M A) (w : World) (evs : list Event) :
  trace (snd (m w)) = trace w ++ evs -> new_events m w = evs.
Proof.
  intros H. unfold new_events. rewrite H. apply skipn_own_length.
Qed.

Section HandlerRequests.

Variable s3Client : S3Client.
Variable GeoTIFFLib : GeoTIFFModule.

Lemma service_getObject_requests (key : string) (w : World) :
  requests (new_events (S3Service.getObject s3Client key) w)
  = [get_command key].
Proof.
  destruct (getObject_effects s3Client key w) as (evs & Hw & Hreq & _).
  rewrite (new_events_of_trace _ w evs); [exact Hreq|].
  now rewrite Hw.
Qed.

Lemma service_getGeoTIFFStream_requests (key : string) (w : World) :
  requests (new_events (S3Service.getGeoTIFFStream s3Client key) w)
  = [get_command key].
Proof.
  destruct (getGeoTIFFStream_effects s3Client key w) as (evs & Hw & Hreq & _).
  rewrite (new_events_of_trace _ w evs); [exact Hreq|].
  now rewrite Hw.
Qed.

Lemma service_getGeoTIFF_requests (key : string) (w : World) :
  requests (new_events (S3Service.getGeoTIFF s3Client GeoTIFFLib key) w)
  = [get_command key].
Proof.
  destruct (getGeoTIFF_effects s3Client GeoTIFFLib key w)
    as (evs & Hw & Hreq).
  rewrite (new_events_of_trace _ w evs); [exact Hreq|].
  now rewrite Hw.
Qed.

Lemma service_listObjects_requests (prefix continuationToken : option string)
      (w : World) :
  requests
    (new_events (S3Service.listObjects s3Client prefix continuationToken) w)
  = [list_command (S3Service.default_param prefix "collection02/")
                  continuationToken].
Proof.
  destruct (listObjects_effects s3Client prefix continuationToken w)
    as (evs & Hw & Hreq).
  rewrite (new_events_of_trace _ w evs); [exact Hreq|].
  now rewrite Hw.
Qed.

Lemma res_set_quiet (fields : list (string * string)) (w : World) :
  trace (snd (S3Controller.res_set fields w)) = trace w
  /\ node (snd (S3Controller.res_set fields w)) = node w.
Proof.
  revert w. induction fields as [|[k v] fields IH]; intros w; cbn.
  - split; reflexivity.
  - unfold bind. rewrite res_set_field_run.
    destruct (header_refused (node w) k v); [split; reflexivity|].
    apply (IH (with_res w (put_header k v (res w)))).
Qed.

Lemma getObject_handler_trace (key : string) (w : World) :
  trace (snd (S3Controller.getObject s3Client key w))
  = trace (snd (S3Service.getObject s3Client
                  (JsString.replace_backslashes key) w)).
Proof.
  rewrite getObject_handler_run. cbv zeta.
  destruct (S3Service.getObject s3Client _ w) as [[e|data] w1];
    [reflexivity|].
  destruct (res_set_quiet
              [("Content-Type", "application/octet-stream");
               ("Content-Disposition",
                S3Controller.disposition "attachment"
                  (JsString.replace_backslashes key))] w1) as [Ht _].
  destruct (S3Controller.res_set _ w1) as [[e|[]] w2]; exact Ht.
Qed.

Lemma getGeoTIFFStream_handler_trace (key : string) (w : World) :
  exists tail : list Event,
    trace (snd (S3Controller.getGeoTIFFStream s3Client key w))
    = trace (snd (S3Service.getGeoTIFFStream s3Client
                    (JsString.replace_backslashes key) w)) ++ tail
    /\ requests tail = []
    /\ filter is_decoder tail = [].
Proof.
  rewrite getGeoTIFFStream_handler_run, getGeoTIFFStream_try_run. cbv zeta.
  destruct (S3Service.getGeoTIFFStream s3Client _ w) as [[e|stream] w1].
  - eexists [_]. repeat apply conj; reflexivity.
  - destruct (res_set_quiet
                [("Content-Type", "image/tiff");
                 ("Content-Disposition",
                  S3Controller.disposition "inline"
                    (JsString.replace_backslashes key))] w1) as [Ht _].
    destruct (S3Controller.res_set _ w1) as [[e|[]] w2]; cbn in *.
    + eexists [_]. rewrite Ht. repeat apply conj; reflexivity.
    + exists []. rewrite Ht, app_nil_r. repeat apply conj; reflexivity.
Qed.

Lemma getGeoTIFF_handler_trace (key : string) (w : World) :
  exists tail : list Event,
    trace (snd (S3Controller.getGeoTIFF s3Client GeoTIFFLib key w))
    = trace (snd (S3Service.getGeoTIFF s3Client GeoTIFFLib
                    (JsString.replace_backslashes key) w)) ++ tail
    /\ requests tail = []
    /\ filter is_decoder tail = [].
Proof.
  rewrite getGeoTIFF_handler_run, getGeoTIFF_try_run. cbv zeta.
  destruct (S3Service.getGeoTIFF s3Client GeoTIFFLib _ w) as [[e|data] w1].
  - eexists [_]. repeat apply conj; reflexivity.
  - destruct (raster_refused (node w1) (S3Service.rasterData data)).
    + eexists [_; _]. cbn. rewrite <- app_assoc.
      repeat apply conj; reflexivity.
    + eexists [_]. repeat apply conj; reflexivity.
Qed.

Lemma getObject_handler_requests (key : string) (w : World) :
  requests (new_events (S3Controller.getObject s3Client key) w)
  = [get_command (JsString.replace_backslashes key)].
Proof.
  destruct (getObject_effects s3Client (JsString.replace_backslashes key) w)
    as (evs & Hw & Hreq & _).
  rewrite (new_events_of_trace _ w evs); [exact Hreq|].
  now rewrite getObject_handler_trace, Hw.
Qed.

Lemma getGeoTIFFStream_handler_requests (key : string) (w : World) :
  requests (new_events (S3Controller.getGeoTIFFStream s3Client key) w)
  = [get_command (JsString.replace_backslashes key)].
Proof.
  destruct (getGeoTIFFStream_effects s3Client
              (JsString.replace_backslashes key) w)
    as (evs & Hw & Hreq & _).
  destruct (getGeoTIFFStream_handler_trace key w) as (tail & Ht & Hr & _).
  rewrite (new_events_of_trace _ w (evs ++ tail)).
  - now rewrite requests_app, Hreq, Hr.
  - rewrite Ht, Hw. cbn. now rewrite app_assoc.
Qed.

Lemma getGeoTIFF_handler_requests (key : string) (w : World) :
  requests (new_events (S3Controller.getGeoTIFF s3Client GeoTIFFLib key) w)
  = [get_command (JsString.replace_backslashes key)].
Proof.
  destruct (getGeoTIFF_effects s3Client GeoTIFFLib
              (JsString.replace_backslashes key) w)
    as (evs & Hw & Hreq).
  destruct (getGeoTIFF_handler_trace key w) as (tail & Ht & Hr & _).
  rewrite (new_events_of_trace _ w (evs ++ tail)).
  - now rewrite requests_app, Hreq, Hr.
  - rewrite Ht, Hw. cbn. now rewrite app_assoc.
Qed.

Lemma listObjects_handler_requests
      (prefix continuationToken : option string) (w : World) :
  requests
    (new_events (S3Controller.listObjects s3Client prefix continuationToken)
                w)
  = [list_command (S3Service.default_param prefix "collection02/")
                  continuationToken].
Proof.
  destruct (listObjects_effects s3Client prefix continuationToken w)
    as (evs & Hw & Hreq).
  rewrite (new_events_of_trace _ w evs); [exact Hreq|].
  rewrite listObjects_handler_run.
  destruct (S3Service.listObjects s3Client _ _ w) as [[e|out] w1];
    cbn [snd] in *; now subst w1.
Qed.

End HandlerRequests.

(** ** When the buffered fetch throws *)

Lemma getObject_throws_iff (s3Client : S3Client) (key : string)
      (e : JsError) (w : World) :
  fst (S3Service.getObject s3Client key w) = inl e
  <-> provider_fails s3Client key e.
Proof.
  rewrite getObject_run. split.
  - destruct (send s3Client (get_command key)) as [e'|out] eqn:Hsend.
    + cbn. intros [= ->]. now apply request_rejected.
    + destruct (stream_error (GetObject.Body out)) as [e'|] eqn:Hbody;
        cbn; [|discriminate].
      intros [= ->]. now apply (transfer_broken _ _ _ out).
  - intros [Hsend | out Hsend Hbody]; rewrite Hsend; [reflexivity|].
    now rewrite Hbody.
Qed.

(** * The claims *)

(** C10. The key sanitization of the three wildcard routes is idempotent,
    and it is the identity on a key with no backslash: such a key reaches
    the storage call of each of the three routes unchanged. *)
Theorem sanitize_idempotent_and_identity
        (s3Client : S3Client) (GeoTIFFLib : GeoTIFFModule)
        (k : string) (w : World) :
  JsString.replace_backslashes (JsString.replace_backslashes k)
  = JsString.replace_backslashes k
  /\ (JsString.contains JsString.backslash k = false ->
      JsString.replace_backslashes k = k
      /\ requests (new_events (S3Controller.getObject s3Client k) w)
         = [get_command k]
      /\ requests (new_events (S3Controller.getGeoTIFFStream s3Client k) w)
         = [get_command k]
      /\ requests
           (new_events (S3Controller.getGeoTIFF s3Client GeoTIFFLib k) w)
         = [get_command k]).
Proof.
  split; [apply replace_backslashes_idempotent|].
  intros Hclean.
  rewrite getObject_handler_requests, getGeoTIFFStream_handler_requests,
    getGeoTIFF_handler_requests.
  rewrite (replace_backslashes_fixed k Hclean). repeat split.
Qed.

Lemma sanitize_idempotent_and_identity_witness :
  JsString.contains JsString.backslash "collection02/foo.tif" = false
  /\ JsString.replace_backslashes "collection02/foo.tif"
     = "collection02/foo.tif"
  /\ requests
       (new_events
          (S3Controller.getObject
             (Sample.rejecting Sample.no_such_key) "collection02/foo.tif")
          Nest.boot)
     = [get_command "collection02/foo.tif"].
Proof.
  split; [reflexivity|].
  destruct (sanitize_idempotent_and_identity
              (Sample.rejecting Sample.no_such_key) Sample.decoder
              "collection02/foo.tif" Nest.boot) as [_ H].
  destruct (H eq_refl) as (H1 & H2 & _).
  split; [exact H1 | exact H2].
Defined.

(** C4. For every key given to the routes [/s3/object/*],
    [/s3/get-geotiff-stream/*] and [/s3/get-geotiff/*], the one request the
    route issues to the storage provider carries the key with every
    backslash replaced by a forward slash: same length, a slash wherever
    the key has a backslash, the key's own character elsewhere, and no
    backslash left. *)
Theorem wildcard_routes_normalize_backslashes
        (s3Client : S3Client) (GeoTIFFLib : GeoTIFFModule)
        (key : string) (w : World) :
  exists effective : string,
    map storage_key
        (requests (new_events (S3Controller.getObject s3Client key) w))
    = [Some effective]
    /\ map storage_key
           (requests
              (new_events (S3Controller.getGeoTIFFStream s3Client key) w))
       = [Some effective]
    /\ map storage_key
           (requests
              (new_events (S3Controller.getGeoTIFF s3Client GeoTIFFLib key)
                          w))
       = [Some effective]
    /\ String.length effective = String.length key
    /\ JsString.contains JsString.backslash effective = false
    /\ forall i : nat,
         JsString.char_at effective i
         = option_map
             (fun c =>
                if Ascii.eqb c JsString.backslash then JsString.slash else c)
             (JsString.char_at key i).
Proof.
  exists (JsString.replace_backslashes key).
  rewrite getObject_handler_requests, getGeoTIFFStream_handler_requests,
    getGeoTIFF_handler_requests.
  repeat split.
  - apply replace_backslashes_length.
  - apply replace_backslashes_clean.
  - apply replace_backslashes_char.
Qed.

(** C8. The one request that the listing operation issues to the storage
    provider, and the one that each object-fetch operation issues (buffered,
    streaming, and the decoding fetch built on the buffered one), carries
    the requester-pays indicator. *)
Theorem storage_requests_carry_requester_pays
        (s3Client : S3Client) (GeoTIFFLib : GeoTIFFModule)
        (prefix continuationToken : option string) (key : string)
        (w : World) :
  let pays c := request_payer c = Some "requester" in
  (exists c,
     requests
       (new_events (S3Service.listObjects s3Client prefix continuationToken)
                   w) = [c] /\ pays c)
  /\ (exists c,
        requests (new_events (S3Service.getObject s3Client key) w) = [c]
        /\ pays c)
  /\ (exists c,
        requests (new_events (S3Service.getGeoTIFFStream s3Client key) w)
        = [c] /\ pays c)
  /\ (exists c,
        requests
          (new_events (S3Service.getGeoTIFF s3Client GeoTIFFLib key) w)
        = [c] /\ pays c).
Proof.
  cbv zeta.
  rewrite service_listObjects_requests, service_getObject_requests,
    service_getGeoTIFFStream_requests, service_getGeoTIFF_requests.
  repeat split; eexists; split; reflexivity.
Qed.

(** C9. When the caller omits the prefix, the listing is performed with
    the prefix ["collection02/"], through the route and through the service
    alike; and whatever the caller gives, the request to the storage
    provider carries a prefix: the caller's own, or the default. *)
Theorem listing_prefix_defaults
        (s3Client : S3Client) (GeoTIFFLib : GeoTIFFModule)
        (prefix continuationToken : option string) (w : World) :
  map storage_prefix
      (requests
         (new_events (S3Controller.listObjects s3Client None continuationToken)
                     w))
  = [Some "collection02/"]
  /\ map storage_prefix
         (requests
            (new_events (S3Service.listObjects s3Client None continuationToken)
                        w))
     = [Some "collection02/"]
  /\ map storage_prefix
         (requests
            (trace (Nest.run s3Client GeoTIFFLib
                             (Nest.GetList None continuationToken))))
     = [Some "collection02/"]
  /\ map storage_prefix
         (requests
            (new_events
               (S3Controller.listObjects s3Client prefix continuationToken) w))
     = [Some match prefix with
             | Some given => given
             | None => "collection02/"
             end].
Proof.
  rewrite !listObjects_handler_requests, service_listObjects_requests.
  repeat split.
  unfold Nest.run, Nest.dispatch. rewrite reply_run.
    pose proof (listObjects_handler_requests s3Client None continuationToken
                                            Nest.boot) as H.
    unfold new_events in H. cbn [Nest.boot trace length skipn] in H.
    destruct (S3Controller.listObjects s3Client None continuationToken
                                       Nest.boot) as [[e|v] w1];
      [|destruct (json_refusal (node w1) v)];
      cbn [snd with_res trace] in *; now rewrite H.
Qed.

(** C3. The authentication check never throws: whatever the storage
    provider does with the privileged call, [verifyAWSAuthentication]
    returns a boolean, [true] when the call succeeds and [false] when it
    fails, and [GET /s3/verify] answers 200 with that boolean as
    [authenticated]. *)
Theorem verify_never_throws
        (s3Client : S3Client) (GeoTIFFLib : GeoTIFFModule) (w : World) :
  let authenticated :=
    match send s3Client ListBucketsCommand with
    | inr _ => true
    | inl _ => false
    end in
  fst (S3Service.verifyAWSAuthentication s3Client w) = inr authenticated
  /\ fst (S3Controller.verifyAWS s3Client w)
     = inr (VObject [("authenticated", VBool authenticated)])
  /\ Nest.serve s3Client GeoTIFFLib Nest.GetVerify
     = {| statusCode := 200; headers := [];
          body := SentJson (VObject [("authenticated", VBool authenticated)]) |}.
Proof.
  cbv zeta. unfold Nest.serve, Nest.run, Nest.dispatch.
  rewrite reply_run. unfold S3Controller.verifyAWS. unfold bind.
  rewrite !verifyAWSAuthentication_run.
  destruct (send s3Client ListBucketsCommand) as [e|out];
    repeat split.
Qed.

(** C1, at a concrete input: the provider rejects the request for a key
    with its [NoSuchKey] error, and the streaming fetch fails with another
    error than the provider's. *)
Lemma getGeoTIFFStream_replaces_provider_error :
  send (Sample.rejecting Sample.no_such_key)
       (get_command "collection02/foo.tif") = inl Sample.no_such_key
  /\ fst (S3Service.getGeoTIFFStream (Sample.rejecting Sample.no_such_key)
                                     "collection02/foo.tif" Nest.boot)
     <> inl Sample.no_such_key.
Proof.
  split; [reflexivity|].
  rewrite getGeoTIFFStream_run. cbn. discriminate.
Qed.

(** C1, amended. For every key whose initial storage request fails, the
    streaming fetch fails too, never swallowing the failure: it logs the
    provider's error and throws in its place a new error, named [Error],
    whose message is ["Could not retrieve GeoTIFF stream"]. *)
Theorem getGeoTIFFStream_masks_provider_error
        (s3Client : S3Client) (key : string) (e : JsError) (w : World) :
  send s3Client (get_command key) = inl e ->
  S3Service.getGeoTIFFStream s3Client key w
  = (inl (mkError "Error" "Could not retrieve GeoTIFF stream"),
     record_events w
       [Logged LoggerLog ("Fetching GeoTIFF stream from S3 with key: " ++ key)
               NoDetail;
        Sent (get_command key);
        Logged LoggerError ("Error getting GeoTIFF stream for key: " ++ key)
               (ErrorDetail e)]).
Proof.
  intros Hsend. rewrite getGeoTIFFStream_run. cbv zeta.
  now rewrite Hsend.
Qed.

Lemma getGeoTIFFStream_masks_provider_error_witness :
  send (Sample.rejecting Sample.no_such_key)
       (get_command "collection02/foo.tif") = inl Sample.no_such_key
  /\ fst (S3Service.getGeoTIFFStream (Sample.rejecting Sample.no_such_key)
                                     "collection02/foo.tif" Nest.boot)
     = inl (mkError "Error" "Could not retrieve GeoTIFF stream").
Proof.
  split; [reflexivity|].
  rewrite (getGeoTIFFStream_masks_provider_error
             (Sample.rejecting Sample.no_such_key) "collection02/foo.tif"
             Sample.no_such_key Nest.boot eq_refl).
  reflexivity.
Defined.

(** C2. Whenever the handling of a request to [/s3/get-geotiff-stream/<key>]
    or to [/s3/get-geotiff/<key>] fails, that is whenever the [try] block of
    the handler throws, whatever throws in it and with whatever error (the
    service operation, the setting of a header, the sending of the data),
    the handler itself returns and the response has status 404 and the JSON
    body with message ["Cannot GET /s3/get-geotiff/<key>"], error
    ["Not Found"] and statusCode 404. *)
Theorem raster_routes_answer_404
        (s3Client : S3Client) (GeoTIFFLib : GeoTIFFModule)
        (key : string) (w : World) :
  let not_found (run : Result unit * World) :=
    fst run = inr tt
    /\ statusCode (res (snd run)) = 404%Z
    /\ body (res (snd run))
       = SentJson
           (VObject
              [("message", VString ("Cannot GET /s3/get-geotiff/" ++ key));
               ("error", VString "Not Found");
               ("statusCode", VNumber 404)]) in
  (forall e,
     fst (S3Controller.getGeoTIFFStream_try s3Client key w) = inl e ->
     not_found (S3Controller.getGeoTIFFStream s3Client key w))
  /\ (forall e,
        fst (S3Controller.getGeoTIFF_try s3Client GeoTIFFLib key w) = inl e ->
        not_found (S3Controller.getGeoTIFF s3Client GeoTIFFLib key w)).
Proof.
  cbv zeta. split; intros e Hfail.
  - rewrite getGeoTIFFStream_handler_run.
    destruct (S3Controller.getGeoTIFFStream_try s3Client key w)
      as [[e'|[]] w1]; [repeat apply conj; reflexivity | discriminate].
  - rewrite getGeoTIFF_handler_run.
    destruct (S3Controller.getGeoTIFF_try s3Client GeoTIFFLib key w)
      as [[e'|[]] w1]; [repeat apply conj; reflexivity | discriminate].
Qed.

Lemma raster_routes_answer_404_witness :
  (fst (S3Service.getGeoTIFFStream
          (Sample.answering Sample.full_page Sample.object)
          (JsString.replace_backslashes Sample.newline_key) Nest.boot)
   = inr Sample.object
   /\ statusCode
        (res (snd (S3Controller.getGeoTIFFStream
                     (Sample.answering Sample.full_page Sample.object)
                     Sample.newline_key Nest.boot))) = 404%Z
   /\ body
        (res (snd (S3Controller.getGeoTIFFStream
                     (Sample.answering Sample.full_page Sample.object)
                     Sample.newline_key Nest.boot)))
      = SentJson
          (VObject
             [("message",
               VString ("Cannot GET /s3/get-geotiff/" ++ Sample.newline_key));
              ("error", VString "Not Found");
              ("statusCode", VNumber 404)]))
  /\ (statusCode
        (res (snd (S3Controller.getGeoTIFF
                     (Sample.answering Sample.full_page Sample.object)
                     Sample.decoder Sample.windows_key Sample.out_of_room)))
      = 404%Z
      /\ statusCode
           (res (snd (S3Controller.getGeoTIFF
                        (Sample.rejecting Sample.no_such_key)
                        Sample.decoder Sample.windows_key Nest.boot)))
         = 404%Z).
Proof.
  repeat apply conj.
  - reflexivity.
  - exact (proj1 (proj2
             (proj1 (raster_routes_answer_404
                       (Sample.answering Sample.full_page Sample.object)
                       Sample.decoder Sample.newline_key Nest.boot)
                    (mkError "TypeError"
                       ("Invalid character in header content ["
                          ++ String JsString.dquote "Content-Disposition"
                          ++ String JsString.dquote "]"))
                    eq_refl))).
  - exact (proj2 (proj2
             (proj1 (raster_routes_answer_404
                       (Sample.answering Sample.full_page Sample.object)
                       Sample.decoder Sample.newline_key Nest.boot)
                    (mkError "TypeError"
                       ("Invalid character in header content ["
                          ++ String JsString.dquote "Content-Disposition"
                          ++ String JsString.dquote "]"))
                    eq_refl))).
  - exact (proj1 (proj2
             (proj2 (raster_routes_answer_404
                       (Sample.answering Sample.full_page Sample.object)
                       Sample.decoder Sample.windows_key Sample.out_of_room)
                    (mkError "RangeError" "Invalid string length")
                    eq_refl))).
  - exact (proj1 (proj2
             (proj2 (raster_routes_answer_404
                       (Sample.rejecting Sample.no_such_key)
                       Sample.decoder Sample.windows_key Nest.boot)
                    (masked "data") eq_refl))).
Defined.

(** C7. Whenever the retrieval behind a request to [/s3/object/<key>]
    fails, because the provider rejects the request or because the transfer
    of the body breaks, the service throws the provider's error itself and
    the response has status 500 and the JSON body whose message is
    ["Error retrieving the object"] and whose error is the message of the
    provider's error, unchanged. *)
Theorem object_route_echoes_provider_message
        (s3Client : S3Client) (key : string) (e : JsError) (w : World) :
  provider_fails s3Client (JsString.replace_backslashes key) e ->
  fst (S3Service.getObject s3Client (JsString.replace_backslashes key) w)
  = inl e
  /\ statusCode (res (snd (S3Controller.getObject s3Client key w))) = 500%Z
  /\ body (res (snd (S3Controller.getObject s3Client key w)))
     = SentJson (VObject [("message", VString "Error retrieving the object");
                          ("error", VString (message e))]).
Proof.
  intros Hfail.
  rewrite getObject_handler_run. cbv zeta. rewrite getObject_run.
  destruct Hfail as [Hsend | out Hsend Hbody]; rewrite Hsend.
  - repeat split.
  - rewrite Hbody. repeat split.
Qed.

Lemma object_route_echoes_provider_message_witness :
  fst (S3Service.getObject
         (Sample.answering Sample.full_page Sample.broken)
         (JsString.replace_backslashes Sample.windows_key) Nest.boot)
  = inl (mkError "Error" "aborted")
  /\ statusCode
       (res (snd (S3Controller.getObject
                    (Sample.answering Sample.full_page Sample.broken)
                    Sample.windows_key Nest.boot))) = 500%Z
  /\ body
       (res (snd (S3Controller.getObject
                    (Sample.answering Sample.full_page Sample.broken)
                    Sample.windows_key Nest.boot)))
     = SentJson (VObject [("message", VString "Error retrieving the object");
                          ("error", VString "aborted")]).
Proof.
  apply (object_route_echoes_provider_message
           (Sample.answering Sample.full_page Sample.broken)
           Sample.windows_key (mkError "Error" "aborted") Nest.boot).
  apply (transfer_broken _ _ _ {| GetObject.Body := Sample.broken |});
    reflexivity.
Defined.



Lemma bytes_of_fresh_buffer (bs : ArrayBuffer) :
  Buffer.bytes (Buffer.from bs) = bs.
Proof.
  unfold Buffer.bytes, Buffer.from, Buffer.slice. cbn.
  rewrite Nat.sub_0_r. apply firstn_all.
Qed.

(** From the body the provider sends to the decoder and back. *)
Lemma getGeoTIFF_end_to_end
      (s3Client : S3Client) (GeoTIFFLib : GeoTIFFModule)
      (key : string) (w : World) :
  let w0 :=
    record_events w
      [Logged ConsoleLog ("Fetching GeoTIFF from S3 with key: " ++ key)
              NoDetail] in
  let calls :=
    filter is_decoder
           (new_events (S3Service.getGeoTIFF s3Client GeoTIFFLib key) w) in
  match send s3Client (get_command key) with
  | inr response =>
      match stream_error (GetObject.Body response) with
      | None =>
          let streamed :=
            flat_map Buffer.bytes (stream_chunks (GetObject.Body response)) in
          (exists buffer : Buffer.t,
             fst (S3Service.getObject s3Client key w0) = inr buffer
             /\ Buffer.bytes buffer = streamed)
          /\ calls = decoder_calls GeoTIFFLib streamed
          /\ fst (S3Service.getGeoTIFF s3Client GeoTIFFLib key w)
             = match spec_decode GeoTIFFLib streamed with
               | inr data => inr data
               | inl _ =>
                   inl (mkError "Error" "Could not retrieve GeoTIFF data")
               end
      | Some e =>
          fst (S3Service.getObject s3Client key w0) = inl e /\ calls = []
      end
  | inl e => fst (S3Service.getObject s3Client key w0) = inl e /\ calls = []
  end.
Proof.
  cbv zeta. unfold new_events.
  rewrite getGeoTIFF_run. cbv zeta. rewrite getObject_run.
  destruct (send s3Client (get_command key)) as [e|response].
  - split; [reflexivity|]. cbn [snd]. rewrite !record_events_app.
    unfold record_events; cbn [trace]. now rewrite skipn_own_length.
  - destruct (stream_error (GetObject.Body response)) as [e|].
    + split; [reflexivity|]. cbn [snd]. rewrite !record_events_app.
      unfold record_events; cbn [trace]. now rewrite skipn_own_length.
    + cbv beta iota zeta. unfold Buffer.concat.
      rewrite !bytes_of_fresh_buffer.
      set (streamed := flat_map Buffer.bytes _).
      repeat apply conj.
      * eexists. split; [reflexivity|]. apply bytes_of_fresh_buffer.
      * destruct (spec_decode GeoTIFFLib streamed) as [e|data];
          cbn [snd]; rewrite !record_events_app;
          unfold record_events; cbn [trace]; rewrite skipn_own_length;
          cbn [app filter is_decoder];
          rewrite decoder_free_app, decoder_calls_all_decoder;
          cbn; apply app_nil_r.
      * destruct (spec_decode GeoTIFFLib streamed); reflexivity.
Qed.

(** C6. For every key, the decode-and-fetch operation first performs the
    full buffered fetch [getObject], which makes no decoder call, and only
    then, without another request to the provider, decodes the very bytes
    of the buffer fetched: parse, first image, raster bands, width, height;
    its result is that image's bands with its width and height.  The buffer
    fetched holds the whole body the provider sends, chunk after chunk, so
    these are the bytes the decoder is given; and when the provider fails
    the retrieval the decoder is not called.  The streaming operation, and
    the route on it, make no decoder call. *)
Theorem getGeoTIFF_fetches_then_decodes
        (s3Client : S3Client) (GeoTIFFLib : GeoTIFFModule)
        (key : string) (w : World) :
  let w0 :=
    record_events w
      [Logged ConsoleLog ("Fetching GeoTIFF from S3 with key: " ++ key)
              NoDetail] in
  let fetched := S3Service.getObject s3Client key w0 in
  (exists after_fetch : list Event,
     trace (snd (S3Service.getGeoTIFF s3Client GeoTIFFLib key w))
     = trace (snd fetched) ++ after_fetch
     /\ requests (new_events (S3Service.getObject s3Client key) w0)
        = [get_command key]
     /\ filter is_decoder (new_events (S3Service.getObject s3Client key) w0)
        = []
     /\ requests after_fetch = []
     /\ filter is_decoder after_fetch
        = match fst fetched with
          | inr buffer => decoder_calls GeoTIFFLib (Buffer.bytes buffer)
          | inl _ => []
          end)
  /\ fst (S3Service.getGeoTIFF s3Client GeoTIFFLib key w)
     = match fst fetched with
       | inr buffer =>
           match spec_decode GeoTIFFLib (Buffer.bytes buffer) with
           | inr data => inr data
           | inl _ => inl (mkError "Error" "Could not retrieve GeoTIFF data")
           end
       | inl _ => inl (mkError "Error" "Could not retrieve GeoTIFF data")
       end
  /\ (forall bytes : ArrayBuffer,
        hd_error (decoder_calls GeoTIFFLib bytes)
        = Some (Decoder (FromArrayBuffer bytes))
        /\ match spec_decode GeoTIFFLib bytes with
           | inr _ =>
               decoder_calls GeoTIFFLib bytes
               = [Decoder (FromArrayBuffer bytes); Decoder (GetImage 0);
                  Decoder ReadRasters; Decoder GetWidth; Decoder GetHeight]
           | inl _ => True
           end)
  /\ filter is_decoder (new_events (S3Service.getGeoTIFFStream s3Client key) w)
     = []
  /\ filter is_decoder
       (new_events (S3Controller.getGeoTIFFStream s3Client key) w) = []
  /\ match send s3Client (get_command key) with
     | inr response =>
         match stream_error (GetObject.Body response) with
         | None =>
             let streamed :=
               flat_map Buffer.bytes
                        (stream_chunks (GetObject.Body response)) in
             (exists buffer : Buffer.t,
                fst fetched = inr buffer /\ Buffer.bytes buffer = streamed)
             /\ filter is_decoder
                  (new_events (S3Service.getGeoTIFF s3Client GeoTIFFLib key)
                              w)
                = decoder_calls GeoTIFFLib streamed
             /\ fst (S3Service.getGeoTIFF s3Client GeoTIFFLib key w)
                = match spec_decode GeoTIFFLib streamed with
                  | inr data => inr data
                  | inl _ =>
                      inl (mkError "Error" "Could not retrieve GeoTIFF data")
                  end
         | Some e =>
             fst fetched = inl e
             /\ filter is_decoder
                  (new_events (S3Service.getGeoTIFF s3Client GeoTIFFLib key)
                              w) = []
         end
     | inl e =>
         fst fetched = inl e
         /\ filter is_decoder
              (new_events (S3Service.getGeoTIFF s3Client GeoTIFFLib key) w)
            = []
     end.
Proof.
  cbv zeta.
  pose proof (getGeoTIFF_end_to_end s3Client GeoTIFFLib key w) as Hend.
  cbv zeta in Hend. revert Hend.
  set (w0 := record_events w _).
  destruct (getObject_effects s3Client key w0) as (evs & Hw & Hreq & Hdec).
  assert (Hnew : new_events (S3Service.getObject s3Client key) w0 = evs)
    by (apply new_events_of_trace; now rewrite Hw).
  intros Hend.
  repeat apply conj; [| | | | |exact Hend]; clear Hend.
  - rewrite Hnew, getGeoTIFF_run. cbv zeta. fold w0.
    destruct (S3Service.getObject s3Client key w0) as [[e|buffer] w1];
      cbn [fst snd] in *.
    + eexists. repeat apply conj;
        [reflexivity|assumption|assumption|reflexivity|reflexivity].
    + destruct (spec_decode GeoTIFFLib (Buffer.bytes buffer)) as [e|data];
        (eexists; repeat apply conj; [reflexivity|assumption|assumption| |]);
        cbn [requests filter is_decoder];
        rewrite ?requests_app, ?decoder_free_app, ?decoder_calls_no_request,
          ?decoder_calls_all_decoder; cbn; now rewrite ?app_nil_r.
  - rewrite getGeoTIFF_run. cbv zeta. fold w0.
    destruct (S3Service.getObject s3Client key w0) as [[e|buffer] w1];
      cbn [fst]; [reflexivity|].
    destruct (spec_decode GeoTIFFLib (Buffer.bytes buffer)); reflexivity.
  - intros bytes. unfold decoder_calls, spec_decode.
    destruct (fromArrayBuffer GeoTIFFLib bytes) as [e|container];
      [split; [reflexivity|exact I]|].
    destruct (getImage container 0) as [e|first];
      [split; [reflexivity|exact I]|].
    destruct (readRasters first); split; try reflexivity; exact I.
  - destruct (getGeoTIFFStream_effects s3Client key w) as (evs' & Hw' & _ & Hd).
    rewrite (new_events_of_trace _ w evs'); [exact Hd | now rewrite Hw'].
  - destruct (getGeoTIFFStream_effects s3Client
                (JsString.replace_backslashes key) w)
      as (evs' & Hw' & _ & Hd).
    destruct (getGeoTIFFStream_handler_trace s3Client key w)
      as (tail & Ht & _ & Hdt).
    rewrite (new_events_of_trace _ w (evs' ++ tail)).
    + now rewrite decoder_free_app, Hd, Hdt.
    + rewrite Ht, Hw'. cbn. now rewrite app_assoc.
Qed.

(** * Further properties *)

(** ** File names *)

Section FileNames.

Import JsString.

Lemma split_without_separator (s : string) :
  contains slash s = false -> split slash s = [s].
Proof.
  induction s as [|c s IH]; cbn; [reflexivity|].
  intros H. apply orb_false_iff in H as [Hc Hs].
  now rewrite Hc, (IH Hs).
Qed.

Lemma split_with_separator (s : string) :
  contains slash s = true ->
  exists seg seg' segs, split slash s = seg :: seg' :: segs.
Proof.
  induction s as [|c s IH]; cbn; [discriminate|].
  destruct (Ascii.eqb c slash) eqn:Hc; cbn.
  - intros _. destruct (split slash s) as [|seg segs] eqn:E;
      [now apply split_nonempty in E|].
    now exists EmptyString, seg, segs.
  - intros Hs. destruct (IH Hs) as (seg & seg' & segs & ->).
    now exists (String c seg), seg', segs.
Qed.

Lemma pop_split (s : string) :
  pop (split slash s) = Some (after_last_slash s).
Proof.
  induction s as [|c s IH]; [reflexivity|].
  cbn [after_last_slash split contains].
  destruct (Ascii.eqb c slash) eqn:Hc; cbn [orb].
  - destruct (split slash s) as [|seg segs] eqn:E;
      [now apply split_nonempty in E|].
    exact IH.
  - destruct (contains slash s) eqn:Hs.
    + destruct (split_with_separator s Hs) as (seg & seg' & segs & E).
      rewrite E in *. exact IH.
    + now rewrite (split_without_separator s Hs).
Qed.

Lemma basename_after_last_slash (s : string) :
  basename s = after_last_slash s.
Proof. unfold basename. now rewrite pop_split. Qed.

Lemma after_last_slash_clean (s : string) :
  contains slash (after_last_slash s) = false.
Proof.
  induction s as [|c s IH]; [reflexivity|].
  cbn [after_last_slash].
  destruct (contains slash (String c s)) eqn:E; [exact IH | exact E].
Qed.

Lemma contains_suffix (c : ascii) (a b : string) :
  contains c (a ++ b) = false -> contains c b = false.
Proof.
  induction a as [|d a IH]; cbn; [auto|].
  intros H. apply orb_false_iff in H as [_ H]. auto.
Qed.

Lemma contains_trailing (d : string) :
  contains slash (d ++ String slash EmptyString) = true.
Proof.
  induction d as [|c d IH]; cbn; [reflexivity|].
  rewrite IH. apply orb_true_r.
Qed.

End FileNames.

(** X1. The file name of a download is what follows the last slash of the
    sanitized key: the key is a directory part, empty or ending in a
    slash, followed by the file name, and the file name has no slash.  As
    the key was sanitized first, it has no backslash either. *)
Theorem basename_is_last_segment (key : string) :
  let sanitizedKey := JsString.replace_backslashes key in
  exists dir : string,
    sanitizedKey = (dir ++ basename sanitizedKey)%string
    /\ (dir = EmptyString
        \/ exists d, dir = (d ++ String JsString.slash EmptyString)%string)
    /\ JsString.contains JsString.slash (basename sanitizedKey) = false
    /\ JsString.contains JsString.backslash (basename sanitizedKey) = false
    /\ forall kind : string,
         S3Controller.disposition kind sanitizedKey
         = (kind ++ "; filename="
              ++ String JsString.dquote
                   (basename sanitizedKey
                      ++ String JsString.dquote EmptyString))%string.
Proof.
  cbv zeta.
  assert (Hdir : forall s, exists dir,
             s = (dir ++ after_last_slash s)%string
             /\ (dir = EmptyString
                 \/ exists d,
                      dir = (d ++ String JsString.slash EmptyString)%string)).
  { induction s as [|c s (dir & Hs & Hd)].
    - exists EmptyString. split; [reflexivity | now left].
    - cbn [after_last_slash].
      destruct (JsString.contains JsString.slash (String c s)) eqn:E.
      + exists (String c dir). split; [cbn; now rewrite <- Hs|].
        right. destruct Hd as [-> | (d & ->)].
        * exists EmptyString. cbn in Hs. cbn in E.
          rewrite Hs, after_last_slash_clean, orb_false_r in E.
          apply Ascii.eqb_eq in E. now subst c.
        * now exists (String c d).
      + exists EmptyString. split; [reflexivity | now left]. }
  destruct (Hdir (JsString.replace_backslashes key)) as (dir & Hs & Hd).
  exists dir. repeat apply conj; try assumption.
  - now rewrite basename_after_last_slash.
  - rewrite basename_after_last_slash. apply after_last_slash_clean.
  - rewrite basename_after_last_slash.
    apply (contains_suffix _ dir). rewrite <- Hs.
    apply replace_backslashes_clean.
  - reflexivity.
Qed.

(** X2. Edge cases of the file name: a key without any slash is its own
    file name, and a key that ends in a slash has the empty file name. *)
Theorem basename_edge_cases (s d : string) :
  (JsString.contains JsString.slash s = false -> basename s = s)
  /\ basename (d ++ String JsString.slash EmptyString) = EmptyString.
Proof.
  rewrite !basename_after_last_slash. split.
  - destruct s as [|c s]; [reflexivity|].
    intros H. cbn [after_last_slash]. now rewrite H.
  - induction d as [|c d IH]; [reflexivity|].
    change (after_last_slash
              (String c (d ++ String JsString.slash EmptyString)) = EmptyString).
    cbn [after_last_slash].
    replace (JsString.contains JsString.slash
               (String c (d ++ String JsString.slash EmptyString)))
      with true; [exact IH|].
    cbn. now rewrite contains_trailing, orb_true_r.
Qed.

Lemma basename_edge_cases_witness :
  basename "catalog.json" = "catalog.json"
  /\ basename ("collection02" ++ String JsString.slash EmptyString)
     = EmptyString.
Proof.
  destruct (basename_edge_cases "catalog.json" "collection02") as [H1 H2].
  split; [exact (H1 eq_refl) | exact H2].
Defined.

(** ** Buffers and the buffered fetch *)

Lemma Buffer_bytes_from (bs : ArrayBuffer) :
  Buffer.bytes (Buffer.from bs) = bs.
Proof.
  unfold Buffer.bytes, Buffer.from, Buffer.slice. cbn.
  rewrite Nat.sub_0_r. apply firstn_all.
Qed.

Lemma Buffer_bytes_length (b : Buffer.t) :
  in_bounds b -> length (Buffer.bytes b) = Buffer.byteLength b.
Proof.
  unfold in_bounds, Buffer.bytes, Buffer.slice. intros H.
  rewrite length_firstn, length_skipn. lia.
Qed.

Lemma getObject_result (s3Client : S3Client) (key : string) (w : World) :
  fst (S3Service.getObject s3Client key w) = fetch_outcome s3Client key.
Proof.
  rewrite getObject_run. unfold fetch_outcome.
  destruct (send s3Client (get_command key)) as [e|out]; [reflexivity|].
  destruct (stream_error (GetObject.Body out)); reflexivity.
Qed.

(** X3. When the provider accepts the request and the body ends without
    error, the buffered fetch returns a buffer that shows exactly the bytes
    of the chunks of the body, in the order received; and when every chunk
    lies within its own memory, the length of the buffer is the sum of the
    lengths of the chunks. *)
Theorem getObject_returns_streamed_bytes
        (s3Client : S3Client) (key : string) (out : GetObject.Output)
        (w : World) :
  send s3Client (get_command key) = inr out ->
  stream_error (GetObject.Body out) = None ->
  exists buffer : Buffer.t,
    fst (S3Service.getObject s3Client key w) = inr buffer
    /\ Buffer.bytes buffer
       = flat_map Buffer.bytes (stream_chunks (GetObject.Body out))
    /\ (Forall in_bounds (stream_chunks (GetObject.Body out)) ->
        Buffer.byteLength buffer
        = list_sum (map Buffer.byteLength
                        (stream_chunks (GetObject.Body out)))).
Proof.
  intros Hsend Hbody.
  exists (Buffer.concat (stream_chunks (GetObject.Body out))).
  rewrite getObject_result. unfold fetch_outcome. rewrite Hsend, Hbody.
  repeat apply conj; [reflexivity | apply Buffer_bytes_from |].
  intros Hin. unfold Buffer.concat. cbn [Buffer.from Buffer.byteLength].
  rewrite length_flat_map. f_equal.
  induction Hin as [|b bs Hb _ IH]; cbn; [reflexivity|].
  now rewrite IH, (Buffer_bytes_length b Hb).
Qed.

Lemma getObject_returns_streamed_bytes_witness :
  exists buffer : Buffer.t,
    fst (S3Service.getObject
           (Sample.answering Sample.full_page
              (StreamData Sample.two_bytes Sample.object))
           "collection02/foo.tif" Nest.boot) = inr buffer
    /\ Buffer.bytes buffer = [Byte.x49; Byte.x49; Byte.x49; Byte.x49]
    /\ Buffer.byteLength buffer = 4.
Proof.
  destruct (getObject_returns_streamed_bytes
              (Sample.answering Sample.full_page
                 (StreamData Sample.two_bytes Sample.object))
              "collection02/foo.tif"
              {| GetObject.Body := StreamData Sample.two_bytes Sample.object |}
              Nest.boot eq_refl eq_refl) as (buffer & Hget & Hbytes & Hlen).
  exists buffer. repeat apply conj; [exact Hget | exact Hbytes |].
  apply Hlen. repeat constructor.
Defined.

(** X4. When the provider accepts the request and the body ends without
    error, the decoding fetch hands the decoder exactly the bytes of the
    chunks of the body, in the order received, and its outcome is the
    decoding of those bytes: the image data, or the one generic error. *)
Theorem getGeoTIFF_decodes_streamed_bytes
        (s3Client : S3Client) (GeoTIFFLib : GeoTIFFModule) (key : string)
        (out : GetObject.Output) (w : World) :
  send s3Client (get_command key) = inr out ->
  stream_error (GetObject.Body out) = None ->
  let streamed :=
    flat_map Buffer.bytes (stream_chunks (GetObject.Body out)) in
  filter is_decoder
         (new_events (S3Service.getGeoTIFF s3Client GeoTIFFLib key) w)
  = decoder_calls GeoTIFFLib streamed
  /\ hd_error (decoder_calls GeoTIFFLib streamed)
     = Some (Decoder (FromArrayBuffer streamed))
  /\ fst (S3Service.getGeoTIFF s3Client GeoTIFFLib key w)
     = match spec_decode GeoTIFFLib streamed with
       | inr data => inr data
       | inl _ => inl (mkError "Error" "Could not retrieve GeoTIFF data")
       end.
Proof.
  intros Hsend Hbody. cbv zeta. unfold new_events.
  rewrite getGeoTIFF_run. cbv zeta. rewrite getObject_run, Hsend, Hbody.
  cbv beta iota zeta. unfold Buffer.concat. rewrite Buffer_bytes_from.
  set (streamed := flat_map Buffer.bytes _).
  repeat apply conj.
  - destruct (spec_decode GeoTIFFLib streamed) as [e|data];
      cbn [snd]; rewrite !record_events_app;
      unfold record_events; cbn [trace]; rewrite skipn_own_length;
      cbn [app filter is_decoder];
      rewrite decoder_free_app, decoder_calls_all_decoder;
      cbn; apply app_nil_r.
  - unfold decoder_calls.
    destruct (fromArrayBuffer GeoTIFFLib streamed) as [e|container];
      [reflexivity|].
    destruct (getImage container 0) as [e|first]; [reflexivity|].
    destruct (readRasters first); reflexivity.
  - destruct (spec_decode GeoTIFFLib streamed); reflexivity.
Qed.

Lemma getGeoTIFF_decodes_streamed_bytes_witness :
  filter is_decoder
         (new_events
            (S3Service.getGeoTIFF
               (Sample.answering Sample.full_page Sample.object)
               Sample.decoder "collection02/foo.tif") Nest.boot)
  = [Decoder (FromArrayBuffer [Byte.x49; Byte.x49]); Decoder (GetImage 0);
     Decoder ReadRasters; Decoder GetWidth; Decoder GetHeight]
  /\ fst (S3Service.getGeoTIFF
            (Sample.answering Sample.full_page Sample.object)
            Sample.decoder "collection02/foo.tif" Nest.boot)
     = inr {| S3Service.rasterData := [[1; 2; 3; 4; 5; 6]%Z];
              S3Service.width := 3; S3Service.height := 2 |}.
Proof.
  destruct (getGeoTIFF_decodes_streamed_bytes
              (Sample.answering Sample.full_page Sample.object)
              Sample.decoder "collection02/foo.tif"
              {| GetObject.Body := Sample.object |} Nest.boot
              eq_refl eq_refl) as (Hcalls & _ & Hresult).
  split; [exact Hcalls | exact Hresult].
Defined.

(** X5. The buffered fetch throws exactly when the provider fails the
    retrieval, and then it throws the provider's error itself, after one
    request and one error line in the log that names the key and carries
    that error. *)
Theorem getObject_throws_provider_error
        (s3Client : S3Client) (key : string) (e : JsError) (w : World) :
  (fst (S3Service.getObject s3Client key w) = inl e
   <-> provider_fails s3Client key e)
  /\ (provider_fails s3Client key e ->
      new_events (S3Service.getObject s3Client key) w
      = [Sent (get_command key);
         Logged LoggerError ("Error getting object " ++ key ++ " from S3")
                (ErrorDetail e)]).
Proof.
  split; [apply getObject_throws_iff|].
  intros Hfail. eapply new_events_recorded. rewrite getObject_run.
  destruct Hfail as [Hsend | out Hsend Hbody]; rewrite Hsend;
    [reflexivity|].
  rewrite Hbody. reflexivity.
Qed.

Lemma getObject_throws_provider_error_witness :
  fst (S3Service.getObject
         (Sample.answering Sample.full_page Sample.broken)
         "collection02/foo.tif" Nest.boot)
  = inl (mkError "Error" "aborted")
  /\ new_events
       (S3Service.getObject
          (Sample.answering Sample.full_page Sample.broken)
          "collection02/foo.tif") Nest.boot
     = [Sent (get_command "collection02/foo.tif");
        Logged LoggerError "Error getting object collection02/foo.tif from S3"
               (ErrorDetail (mkError "Error" "aborted"))].
Proof.
  assert (Hfail : provider_fails
                    (Sample.answering Sample.full_page Sample.broken)
                    "collection02/foo.tif" (mkError "Error" "aborted"))
    by (apply (transfer_broken _ _ _ {| GetObject.Body := Sample.broken |});
        reflexivity).
  destruct (getObject_throws_provider_error
              (Sample.answering Sample.full_page Sample.broken)
              "collection02/foo.tif" (mkError "Error" "aborted") Nest.boot)
    as [[_ Hthrows] Hlog].
  split; [exact (Hthrows Hfail) | exact (Hlog Hfail)].
Defined.

(** ** Failures of the service *)

Lemma decoder_calls_no_error_line (GeoTIFFLib : GeoTIFFModule)
      (bytes : ArrayBuffer) :
  filter is_error_line (decoder_calls GeoTIFFLib bytes) = [].
Proof.
  unfold decoder_calls.
  destruct (fromArrayBuffer GeoTIFFLib bytes) as [e|container];
    [reflexivity|].
  destruct (getImage container 0) as [e|first]; [reflexivity|].
  destruct (readRasters first); reflexivity.
Qed.

(** X6. The decoding fetch hides no failure from the log: when the
    retrieval or a decoder call fails, the last line it writes, before it
    throws its generic error, is an error line that carries the error of
    that failure; when nothing fails, it returns the data and writes no
    error line. *)
Theorem getGeoTIFF_logs_the_cause
        (s3Client : S3Client) (GeoTIFFLib : GeoTIFFModule) (key : string)
        (w : World) :
  match failure_cause s3Client GeoTIFFLib key with
  | Some cause =>
      fst (S3Service.getGeoTIFF s3Client GeoTIFFLib key w)
      = inl (mkError "Error" "Could not retrieve GeoTIFF data")
      /\ exists before : list Event,
           new_events (S3Service.getGeoTIFF s3Client GeoTIFFLib key) w
           = before ++ [Logged ConsoleError "Error in getGeoTIFF:"
                               (ErrorDetail cause)]
  | None =>
      (exists data,
         fst (S3Service.getGeoTIFF s3Client GeoTIFFLib key w) = inr data)
      /\ filter is_error_line
                (new_events (S3Service.getGeoTIFF s3Client GeoTIFFLib key) w)
         = []
  end.
Proof.
  unfold failure_cause, fetch_outcome, new_events.
  rewrite getGeoTIFF_run. cbv zeta. rewrite getObject_run.
  destruct (send s3Client (get_command key)) as [e|out].
  - split; [reflexivity|]. cbn [snd]. rewrite !record_events_app.
    unfold record_events; cbn [trace]. rewrite skipn_own_length.
    now eexists [_; _; _].
  - destruct (stream_error (GetObject.Body out)) as [e|].
    + split; [reflexivity|]. cbn [snd]. rewrite !record_events_app.
      unfold record_events; cbn [trace]. rewrite skipn_own_length.
      now eexists [_; _; _].
    + cbv beta iota zeta.
      destruct (spec_decode GeoTIFFLib _) as [e|data].
      * split; [reflexivity|]. cbn [snd]. rewrite !record_events_app.
        unfold record_events; cbn [trace]. rewrite skipn_own_length.
        eexists (_ :: _ :: _ :: decoder_calls GeoTIFFLib _).
        cbn [app]. reflexivity.
      * split; [now exists data|]. cbn [snd]. rewrite !record_events_app.
        unfold record_events; cbn [trace]. rewrite skipn_own_length.
        cbn [app filter is_error_line].
        rewrite filter_app, decoder_calls_no_error_line. reflexivity.
Qed.

(** X7. When the provider rejects a listing, the service writes one error
    line that carries the provider's error and throws that very error, and
    the handler of the route, which catches nothing, throws it on and
    leaves the response as it was. *)
Theorem listObjects_rethrows_provider_error
        (s3Client : S3Client) (prefix continuationToken : option string)
        (e : JsError) (w : World) :
  let command :=
    list_command (S3Service.default_param prefix "collection02/")
                 continuationToken in
  send s3Client command = inl e ->
  fst (S3Service.listObjects s3Client prefix continuationToken w) = inl e
  /\ fst (S3Controller.listObjects s3Client prefix continuationToken w)
     = inl e
  /\ new_events (S3Controller.listObjects s3Client prefix continuationToken)
                w
     = [Sent command;
        Logged LoggerError "Error listing objects from S3" (ErrorDetail e)]
  /\ res (snd (S3Controller.listObjects s3Client prefix continuationToken w))
     = res w.
Proof.
  cbv zeta. intros Hsend. unfold new_events.
  rewrite listObjects_handler_run, listObjects_run. cbv zeta.
  rewrite Hsend. repeat apply conj; try reflexivity.
  cbn [snd]. unfold record_events; cbn [trace]. apply skipn_own_length.
Qed.

Lemma listObjects_rethrows_provider_error_witness :
  fst (S3Service.listObjects (Sample.rejecting Sample.invalid_token)
                             None None Nest.boot)
  = inl Sample.invalid_token
  /\ fst (S3Controller.listObjects (Sample.rejecting Sample.invalid_token)
                                   None None Nest.boot)
     = inl Sample.invalid_token
  /\ new_events
       (S3Controller.listObjects (Sample.rejecting Sample.invalid_token)
                                 None None) Nest.boot
     = [Sent (list_command "collection02/" None);
        Logged LoggerError "Error listing objects from S3"
               (ErrorDetail Sample.invalid_token)]
  /\ res (snd (S3Controller.listObjects
                 (Sample.rejecting Sample.invalid_token) None None Nest.boot))
     = Nest.fresh.
Proof.
  exact (listObjects_rethrows_provider_error
           (Sample.rejecting Sample.invalid_token) None None
           Sample.invalid_token Nest.boot eq_refl).
Defined.

(** X8. The authentication check costs one request, the enumeration of
    the buckets, which carries no requester-pays indicator; it writes one
    line, an error line with the provider's error when the request fails,
    and it leaves the response alone. *)
Theorem verifyAWSAuthentication_probes_once
        (s3Client : S3Client) (w : World) :
  requests (new_events (S3Service.verifyAWSAuthentication s3Client) w)
  = [ListBucketsCommand]
  /\ map request_payer
         (requests (new_events (S3Service.verifyAWSAuthentication s3Client) w))
     = [None]
  /\ res (snd (S3Service.verifyAWSAuthentication s3Client w)) = res w
  /\ match send s3Client ListBucketsCommand with
     | inl e =>
         new_events (S3Service.verifyAWSAuthentication s3Client) w
         = [Sent ListBucketsCommand;
            Logged LoggerError "Failed to authenticate with AWS:"
                   (ErrorDetail e)]
     | inr _ =>
         filter is_error_line
                (new_events (S3Service.verifyAWSAuthentication s3Client) w)
         = []
     end.
Proof.
  unfold new_events. rewrite verifyAWSAuthentication_run.
  destruct (send s3Client ListBucketsCommand) as [e|out];
    cbn [snd]; unfold record_events; cbn [trace res];
    rewrite skipn_own_length; repeat apply conj; reflexivity.
Qed.

(** X9. Whatever the prefix, the token or the key, every request of the
    listing route and of the three wildcard routes goes to the one bucket
    [usgs-landsat]; and the listing request carries the continuation token
    of the caller as given, none when the caller gives none. *)
Theorem requests_target_the_fixed_bucket
        (s3Client : S3Client) (GeoTIFFLib : GeoTIFFModule)
        (prefix continuationToken : option string) (key : string)
        (w : World) :
  let listing :=
    requests
      (new_events (S3Controller.listObjects s3Client prefix continuationToken)
                  w) in
  map storage_bucket listing = [Some "usgs-landsat"]
  /\ map storage_token listing = [continuationToken]
  /\ map storage_bucket
         (requests (new_events (S3Controller.getObject s3Client key) w))
     = [Some "usgs-landsat"]
  /\ map storage_bucket
         (requests
            (new_events (S3Controller.getGeoTIFFStream s3Client key) w))
     = [Some "usgs-landsat"]
  /\ map storage_bucket
         (requests
            (new_events (S3Controller.getGeoTIFF s3Client GeoTIFFLib key) w))
     = [Some "usgs-landsat"].
Proof.
  cbv zeta.
  rewrite listObjects_handler_requests, getObject_handler_requests,
    getGeoTIFFStream_handler_requests, getGeoTIFF_handler_requests.
  repeat apply conj; reflexivity.
Qed.

(** ** Responses of the wildcard routes *)

Lemma same_header_refl (k : string) : S3Controller.same_header k k = true.
Proof. apply String.eqb_refl. Qed.

Lemma same_header_trans (k k' k'' : string) :
  S3Controller.same_header k k' = true ->
  S3Controller.same_header k k'' = S3Controller.same_header k' k''.
Proof.
  unfold S3Controller.same_header. intros H.
  apply String.eqb_eq in H. now rewrite H.
Qed.

Lemma get_header_set_same (k v : string) (hs : list (string * string)) :
  get_header k (S3Controller.set_header k v hs) = Some v.
Proof.
  induction hs as [|[k' v'] hs IH]; cbn.
  - now rewrite same_header_refl.
  - destruct (S3Controller.same_header k k') eqn:E; cbn;
      rewrite ?same_header_refl, ?E; auto.
Qed.

Lemma get_header_set_other (k k' v : string) (hs : list (string * string)) :
  S3Controller.same_header k k' = false ->
  get_header k (S3Controller.set_header k' v hs) = get_header k hs.
Proof.
  intros Hk.
  induction hs as [|[k'' v''] hs IH]; cbn.
  - now rewrite Hk.
  - destruct (S3Controller.same_header k' k'') eqn:E; cbn.
    + rewrite Hk.
      assert (Hk' : S3Controller.same_header k k'' = false).
      { unfold S3Controller.same_header in *.
        apply String.eqb_eq in E. now rewrite <- E. }
      now rewrite Hk'.
    + now rewrite IH.
Qed.

Lemma getGeoTIFF_result (s3Client : S3Client) (GeoTIFFLib : GeoTIFFModule)
      (key : string) (w : World) :
  fst (S3Service.getGeoTIFF s3Client GeoTIFFLib key w)
  = match fetch_outcome s3Client key with
    | inr buffer =>
        match spec_decode GeoTIFFLib (Buffer.bytes buffer) with
        | inr data => inr data
        | inl _ => inl (masked "data")
        end
    | inl _ => inl (masked "data")
    end.
Proof.
  rewrite getGeoTIFF_run. cbv zeta.
  rewrite <- (getObject_result s3Client key
                (record_events w
                   [Logged ConsoleLog
                           ("Fetching GeoTIFF from S3 with key: " ++ key)
                           NoDetail])).
  destruct (S3Service.getObject s3Client key _) as [[e|buffer] w1];
    cbn [fst]; [reflexivity|].
  destruct (spec_decode GeoTIFFLib (Buffer.bytes buffer)); reflexivity.
Qed.

Lemma getObject_keeps_runtime (s3Client : S3Client) (key : string)
      (w : World) :
  node (snd (S3Service.getObject s3Client key w)) = node w.
Proof.
  destruct (getObject_effects s3Client key w) as (evs & Hw & _).
  now rewrite Hw.
Qed.

Lemma getGeoTIFF_keeps_runtime (s3Client : S3Client)
      (GeoTIFFLib : GeoTIFFModule) (key : string) (w : World) :
  node (snd (S3Service.getGeoTIFF s3Client GeoTIFFLib key w)) = node w.
Proof.
  destruct (getGeoTIFF_effects s3Client GeoTIFFLib key w) as (evs & Hw & _).
  now rewrite Hw.
Qed.

(** X10. A download answers 200 with the bytes fetched as its body, the
    content type [application/octet-stream] and the attachment disposition
    named after the sanitized key, whenever the retrieval succeeds and the
    runtime accepts the values of these two headers. *)
Theorem object_route_serves_download
        (s3Client : S3Client) (key : string) (out : GetObject.Output)
        (w : World) :
  let sanitizedKey := JsString.replace_backslashes key in
  send s3Client (get_command sanitizedKey) = inr out ->
  stream_error (GetObject.Body out) = None ->
  header_refused (node w) "Content-Type" "application/octet-stream" = None ->
  header_refused (node w) "Content-Disposition"
                 (S3Controller.disposition "attachment" sanitizedKey) = None ->
  let r := res (snd (S3Controller.getObject s3Client key w)) in
  statusCode r = 200%Z
  /\ body r = SentBuffer (Buffer.concat (stream_chunks (GetObject.Body out)))
  /\ get_header "Content-Type" (headers r) = Some "application/octet-stream"
  /\ get_header "Content-Disposition" (headers r)
     = Some (S3Controller.disposition "attachment" sanitizedKey).
Proof.
  cbv zeta. intros Hsend Hbody Htype Hdisp.
  rewrite getObject_handler_run. cbv zeta.
  rewrite getObject_run, Hsend, Hbody, res_set_two.
  cbn [node record_events]. rewrite Htype, Hdisp.
  cbn [snd with_res res put_header statusCode body headers].
  repeat apply conj; try reflexivity.
  - rewrite get_header_set_other by reflexivity.
    apply get_header_set_same.
  - apply get_header_set_same.
Qed.

Lemma object_route_serves_download_witness :
  statusCode
    (res (snd (S3Controller.getObject
                 (Sample.answering Sample.full_page Sample.object)
                 Sample.windows_key Nest.boot))) = 200%Z
  /\ body
       (res (snd (S3Controller.getObject
                    (Sample.answering Sample.full_page Sample.object)
                    Sample.windows_key Nest.boot)))
     = SentBuffer (Buffer.from [Byte.x49; Byte.x49])
  /\ get_header "Content-Type"
       (headers
          (res (snd (S3Controller.getObject
                       (Sample.answering Sample.full_page Sample.object)
                       Sample.windows_key Nest.boot))))
     = Some "application/octet-stream".
Proof.
  destruct (object_route_serves_download
              (Sample.answering Sample.full_page Sample.object)
              Sample.windows_key {| GetObject.Body := Sample.object |}
              Nest.boot eq_refl eq_refl eq_refl eq_refl)
    as (H1 & H2 & H3 & _).
  repeat apply conj; [exact H1 | exact H2 | exact H3].
Defined.

(** X11. The handler of the object route never throws, whatever the
    provider and the runtime do.  It answers 200 with the buffer when the
    retrieval succeeds and the runtime accepts both header values; in every
    other case it answers 500 with the message of the error in its body:
    the provider's, or the one the runtime threw at the header. *)
Theorem object_route_always_answers
        (s3Client : S3Client) (key : string) (w : World) :
  let sanitizedKey := JsString.replace_backslashes key in
  let failed (e : JsError) (r : ServerResponse) :=
    statusCode r = 500%Z
    /\ body r
       = SentJson (VObject [("message",
                             VString "Error retrieving the object");
                            ("error", VString (message e))]) in
  exists w' : World,
    S3Controller.getObject s3Client key w = (inr tt, w')
    /\ match fetch_outcome s3Client sanitizedKey with
       | inl e => failed e (res w')
       | inr data =>
           match header_refused (node w) "Content-Type"
                                "application/octet-stream" with
           | Some e => failed e (res w')
           | None =>
               match header_refused
                       (node w) "Content-Disposition"
                       (S3Controller.disposition "attachment" sanitizedKey)
               with
               | Some e => failed e (res w')
               | None =>
                   statusCode (res w') = 200%Z
                   /\ body (res w') = SentBuffer data
               end
           end
       end.
Proof.
  cbv zeta. rewrite getObject_handler_run. cbv zeta.
  rewrite <- (getObject_result s3Client _ w).
  pose proof (getObject_keeps_runtime s3Client
                (JsString.replace_backslashes key) w) as Hnode.
  destruct (S3Service.getObject s3Client _ w) as [[e|data] w1];
    cbn [fst snd] in *.
  - eexists. split; [reflexivity|]. split; reflexivity.
  - rewrite res_set_two, Hnode.
    destruct (header_refused (node w) "Content-Type" _) as [e|];
      [eexists; split; [reflexivity|]; split; reflexivity|].
    destruct (header_refused (node w) "Content-Disposition" _) as [e|];
      eexists; (split; [reflexivity|]); split; reflexivity.
Qed.

(** X12. The handler of the streaming route never throws.  When the
    provider accepts the request and the runtime accepts both header
    values, the handler pipes the very stream the provider answered with,
    leaves the status as it was, and has set the content type [image/tiff]
    and the inline disposition named after the sanitized key; in every
    other case it answers 404 with the body of the raster routes. *)
Theorem stream_route_forwards_body
        (s3Client : S3Client) (key : string) (w : World) :
  let sanitizedKey := JsString.replace_backslashes key in
  let not_found (r : ServerResponse) :=
    statusCode r = 404%Z /\ body r = SentJson (not_found_body key) in
  exists w' : World,
    S3Controller.getGeoTIFFStream s3Client key w = (inr tt, w')
    /\ match send s3Client (get_command sanitizedKey) with
       | inl _ => not_found (res w')
       | inr out =>
           match header_refused (node w) "Content-Type" "image/tiff" with
           | Some _ => not_found (res w')
           | None =>
               match header_refused
                       (node w) "Content-Disposition"
                       (S3Controller.disposition "inline" sanitizedKey)
               with
               | Some _ => not_found (res w')
               | None =>
                   statusCode (res w') = statusCode (res w)
                   /\ body (res w') = Piped (GetObject.Body out)
                   /\ get_header "Content-Type" (headers (res w'))
                      = Some "image/tiff"
                   /\ get_header "Content-Disposition" (headers (res w'))
                      = Some (S3Controller.disposition "inline" sanitizedKey)
               end
           end
       end.
Proof.
  cbv zeta.
  rewrite getGeoTIFFStream_handler_run, getGeoTIFFStream_try_run. cbv zeta.
  rewrite getGeoTIFFStream_run. cbv zeta.
  destruct (send s3Client (get_command _)) as [e|out].
  - eexists. split; [reflexivity|]. split; reflexivity.
  - rewrite res_set_two. cbn [node record_events].
    destruct (header_refused (node w) "Content-Type" _) as [e|];
      [eexists; split; [reflexivity|]; split; reflexivity|].
    destruct (header_refused (node w) "Content-Disposition" _) as [e|];
      [eexists; split; [reflexivity|]; split; reflexivity|].
    eexists. split; [reflexivity|].
    cbn [snd with_res res put_header statusCode body headers].
    repeat apply conj; try reflexivity.
    + rewrite get_header_set_other by reflexivity.
      apply get_header_set_same.
    + apply get_header_set_same.
Qed.

(** X13. The handler of the decoding route never throws.  It answers 200
    with the raster data, the width and the height decoded from the bytes
    fetched when the retrieval and the decoding both succeed and the
    runtime can make a string of the raster data; in every other case it
    answers 404 with the body of the raster routes. *)
Theorem decode_route_always_answers
        (s3Client : S3Client) (GeoTIFFLib : GeoTIFFModule) (key : string)
        (w : World) :
  let not_found (r : ServerResponse) :=
    statusCode r = 404%Z /\ body r = SentJson (not_found_body key) in
  exists w' : World,
    S3Controller.getGeoTIFF s3Client GeoTIFFLib key w = (inr tt, w')
    /\ match fetch_outcome s3Client (JsString.replace_backslashes key) with
       | inr buffer =>
           match spec_decode GeoTIFFLib (Buffer.bytes buffer) with
           | inr data =>
               match raster_refused (node w) (S3Service.rasterData data) with
               | None =>
                   statusCode (res w') = 200%Z
                   /\ body (res w')
                      = SentJson
                          (VObject
                             [("rasterData",
                               VRaster (S3Service.rasterData data));
                              ("width", VNumber (S3Service.width data));
                              ("height", VNumber (S3Service.height data))])
               | Some _ => not_found (res w')
               end
           | inl _ => not_found (res w')
           end
       | inl _ => not_found (res w')
       end.
Proof.
  cbv zeta. rewrite getGeoTIFF_handler_run, getGeoTIFF_try_run. cbv zeta.
  pose proof (getGeoTIFF_result s3Client GeoTIFFLib
                (JsString.replace_backslashes key) w) as Hres.
  pose proof (getGeoTIFF_keeps_runtime s3Client GeoTIFFLib
                (JsString.replace_backslashes key) w) as Hnode.
  destruct (S3Service.getGeoTIFF s3Client GeoTIFFLib _ w) as [[e|data] w1];
    cbn [fst snd] in *.
  - eexists. split; [reflexivity|].
    destruct (fetch_outcome s3Client _) as [e'|buffer];
      [split; reflexivity|].
    destruct (spec_decode GeoTIFFLib (Buffer.bytes buffer)) as [e''|data'];
      [split; reflexivity | discriminate].
  - destruct (fetch_outcome s3Client _) as [e'|buffer]; [discriminate|].
    destruct (spec_decode GeoTIFFLib (Buffer.bytes buffer)) as [e''|data'];
      [discriminate|].
    injection Hres as ->. rewrite Hnode.
    destruct (raster_refused (node w) (S3Service.rasterData data'));
      eexists; (split; [reflexivity|]); split; reflexivity.
Qed.

(** X14. A key written with backslashes and the same key written with
    slashes are served alike.  The object route does the same on both, to
    the last effect; so do the streaming route and the decoding route
    whenever the [try] block of their handler completes, and when it throws
    they give the same status on both. *)
Theorem routes_accept_either_separator
        (s3Client : S3Client) (GeoTIFFLib : GeoTIFFModule) (key : string)
        (w : World) :
  let sanitizedKey := JsString.replace_backslashes key in
  S3Controller.getObject s3Client key w
  = S3Controller.getObject s3Client sanitizedKey w
  /\ (fst (S3Controller.getGeoTIFFStream_try s3Client sanitizedKey w)
      = inr tt ->
      S3Controller.getGeoTIFFStream s3Client key w
      = S3Controller.getGeoTIFFStream s3Client sanitizedKey w)
  /\ (fst (S3Controller.getGeoTIFF_try s3Client GeoTIFFLib sanitizedKey w)
      = inr tt ->
      S3Controller.getGeoTIFF s3Client GeoTIFFLib key w
      = S3Controller.getGeoTIFF s3Client GeoTIFFLib sanitizedKey w)
  /\ statusCode (res (snd (S3Controller.getGeoTIFFStream s3Client key w)))
     = statusCode
         (res (snd (S3Controller.getGeoTIFFStream s3Client sanitizedKey w)))
  /\ statusCode (res (snd (S3Controller.getGeoTIFF s3Client GeoTIFFLib key w)))
     = statusCode
         (res (snd (S3Controller.getGeoTIFF s3Client GeoTIFFLib
                                            sanitizedKey w))).
Proof.
  cbv zeta.
  assert (Hs : S3Controller.getGeoTIFFStream_try s3Client
                 (JsString.replace_backslashes key) w
               = S3Controller.getGeoTIFFStream_try s3Client key w)
    by (unfold S3Controller.getGeoTIFFStream_try;
        now rewrite replace_backslashes_idempotent).
  assert (Hd : S3Controller.getGeoTIFF_try s3Client GeoTIFFLib
                 (JsString.replace_backslashes key) w
               = S3Controller.getGeoTIFF_try s3Client GeoTIFFLib key w)
    by (unfold S3Controller.getGeoTIFF_try;
        now rewrite replace_backslashes_idempotent).
  rewrite !getGeoTIFFStream_handler_run, !getGeoTIFF_handler_run, Hs, Hd.
  repeat apply conj.
  - unfold S3Controller.getObject.
    now rewrite replace_backslashes_idempotent.
  - intros H.
    destruct (S3Controller.getGeoTIFFStream_try s3Client key w)
      as [[e|[]] w1]; [discriminate | reflexivity].
  - intros H.
    destruct (S3Controller.getGeoTIFF_try s3Client GeoTIFFLib key w)
      as [[e|[]] w1]; [discriminate | reflexivity].
  - destruct (S3Controller.getGeoTIFFStream_try s3Client key w)
      as [[e|[]] w1]; reflexivity.
  - destruct (S3Controller.getGeoTIFF_try s3Client GeoTIFFLib key w)
      as [[e|[]] w1]; reflexivity.
Qed.

Lemma routes_accept_either_separator_witness :
  S3Controller.getGeoTIFFStream
    (Sample.answering Sample.full_page Sample.object) Sample.windows_key
    Nest.boot
  = S3Controller.getGeoTIFFStream
      (Sample.answering Sample.full_page Sample.object)
      (JsString.replace_backslashes Sample.windows_key) Nest.boot
  /\ S3Controller.getGeoTIFF
       (Sample.answering Sample.full_page Sample.object) Sample.decoder
       Sample.windows_key Nest.boot
     = S3Controller.getGeoTIFF
         (Sample.answering Sample.full_page Sample.object) Sample.decoder
         (JsString.replace_backslashes Sample.windows_key) Nest.boot.
Proof.
  destruct (routes_accept_either_separator
              (Sample.answering Sample.full_page Sample.object)
              Sample.decoder Sample.windows_key Nest.boot)
    as (_ & Hstream & Hdecode & _).
  split; [exact (Hstream eq_refl) | exact (Hdecode eq_refl)].
Defined.

(** ** The body of a listing *)

(** X15. The body of a listing has a [contents] entry exactly when the
    provider's response has [Contents]: a response without it, as for a
    prefix that matches nothing, is serialized with no [contents] at all,
    not with an empty list; and a list the provider sends arrives with as
    many entries as it has. *)
Theorem listing_contents_follow_provider
        (s3Client : S3Client) (prefix continuationToken : option string)
        (response : ListObjectsV2.Output) (w : World) :
  send s3Client
       (list_command (S3Service.default_param prefix "collection02/")
                     continuationToken) = inr response ->
  exists json : JsValue,
    fst (S3Controller.listObjects s3Client prefix continuationToken w)
    = inr json
    /\ (In "contents" (map fst (serialized_fields json))
        <-> ListObjectsV2.Contents response <> None)
    /\ forall objects,
         ListObjectsV2.Contents response = Some objects ->
         exists items,
           prop "contents" json = VArray items
           /\ length items = length objects
           /\ map (prop "Key") items
              = map (fun o => of_option VString (ListObjectsV2.Key o)) objects.
Proof.
  intros Hsend.
  rewrite listObjects_handler_run, listObjects_run. cbv zeta.
  rewrite Hsend. exists (listing_body response).
  split; [reflexivity|]. unfold listing_body. split.
  - cbn. destruct (ListObjectsV2.Contents response) as [objects|];
      destruct (ListObjectsV2.IsTruncated response);
      destruct (ListObjectsV2.NextContinuationToken response); cbn;
      split; try discriminate; try tauto; try congruence;
      intros H; repeat (destruct H as [H|H]; try discriminate);
      try contradiction.
  - intros objects ->. exists (map of_object objects).
    repeat apply conj; [reflexivity | apply length_map |].
    rewrite map_map. reflexivity.
Qed.

Lemma listing_contents_follow_provider_witness :
  exists json : JsValue,
    fst (S3Controller.listObjects
           (Sample.answering Sample.last_page Sample.object) None None
           Nest.boot) = inr json
    /\ ~ In "contents" (map fst (serialized_fields json)).
Proof.
  destruct (listing_contents_follow_provider
              (Sample.answering Sample.last_page Sample.object) None None
              Sample.last_page Nest.boot eq_refl) as (json & Hjson & Hiff & _).
  exists json. split; [exact Hjson|].
  intros Hin. apply Hiff in Hin. now apply Hin.
Defined.

(** X16. A listing result returned by [listObjects], and the body by which
    [GET /s3/list] serializes it, carry the truncation flag and the
    continuation token of the provider's response unchanged; so the token
    is absent where the flag is false and present where it is true exactly
    when that holds of the provider's response. *)
Theorem listing_forwards_flag_and_token
        (s3Client : S3Client) (prefix continuationToken : option string)
        (response : ListObjectsV2.Output) (w : World) :
  send s3Client
       (list_command (S3Service.default_param prefix "collection02/")
                     continuationToken) = inr response ->
  fst (S3Service.listObjects s3Client prefix continuationToken w)
  = inr response
  /\ exists json,
       fst (S3Controller.listObjects s3Client prefix continuationToken w)
       = inr json
       /\ prop "isTruncated" json
          = of_option VBool (ListObjectsV2.IsTruncated response)
       /\ prop "nextContinuationToken" json
          = of_option VString (ListObjectsV2.NextContinuationToken response)
       /\ json_token_matches_flag json = token_matches_flag response.
Proof.
  intros Hsend.
  rewrite listObjects_handler_run, listObjects_run. cbv zeta.
  rewrite Hsend. split; [reflexivity|].
  exists (listing_body response). repeat split.
  unfold json_token_matches_flag, token_matches_flag. cbn.
  destruct (ListObjectsV2.IsTruncated response) as [[|]|],
    (ListObjectsV2.NextContinuationToken response); reflexivity.
Qed.

Lemma listing_forwards_flag_and_token_witness :
  fst (S3Service.listObjects
         (Sample.answering Sample.full_page Sample.object)
         (Some "collection02/LC08/") None Nest.boot)
  = inr Sample.full_page
  /\ exists json,
       fst (S3Controller.listObjects
              (Sample.answering Sample.full_page Sample.object)
              (Some "collection02/LC08/") None Nest.boot) = inr json
       /\ prop "isTruncated" json = VBool true
       /\ prop "nextContinuationToken" json = VString "1ueGcxLPRx1Tr"
       /\ json_token_matches_flag json = true.
Proof.
  exact (listing_forwards_flag_and_token
           (Sample.answering Sample.full_page Sample.object)
           (Some "collection02/LC08/") None Sample.full_page Nest.boot
           eq_refl).
Defined.

(** * Runs on sample inputs *)

Example replace_windows_key :
  JsString.replace_backslashes Sample.windows_key = "collection02/foo.tif".
Proof. reflexivity. Qed.

Example split_pop_basename :
  JsString.pop (JsString.split JsString.slash "collection02/foo.tif")
  = Some "foo.tif".
Proof. reflexivity. Qed.

Example split_trailing_slash :
  JsString.split JsString.slash "collection02/" = ["collection02"; EmptyString].
Proof. reflexivity. Qed.

Example verify_with_bad_credentials :
  Nest.run (Sample.rejecting Sample.invalid_token) Sample.decoder
           Nest.GetVerify
  = {| trace :=
         [Sent ListBucketsCommand;
          Logged LoggerError "Failed to authenticate with AWS:"
                 (ErrorDetail Sample.invalid_token)];
       res := {| statusCode := 200; headers := [];
                 body := SentJson (VObject [("authenticated", VBool false)])
              |};
       node := Node.runtime |}.
Proof. reflexivity. Qed.

Example list_with_bad_credentials :
  Nest.serve (Sample.rejecting Sample.invalid_token) Sample.decoder
             (Nest.GetList None None)
  = {| statusCode := 500; headers := [];
       body := SentJson (VObject [("statusCode", VNumber 500);
                                  ("message", VString "Internal server error")])
    |}.
Proof. reflexivity. Qed.

Example download_object :
  Nest.serve (Sample.answering Sample.full_page Sample.object) Sample.decoder
             (Nest.GetObject Sample.windows_key)
  = {| statusCode := 200;
       headers :=
         [("Content-Type", "application/octet-stream");
          ("Content-Disposition",
           ("attachment; filename=" ++ String JsString.dquote "foo.tif"
            ++ String JsString.dquote EmptyString)%string)];
       body := SentBuffer Sample.two_bytes |}.
Proof. reflexivity. Qed.

Example stream_object :
  Nest.serve (Sample.answering Sample.full_page Sample.broken) Sample.decoder
             (Nest.GetGeoTIFFStream Sample.windows_key)
  = {| statusCode := 200;
       headers :=
         [("Content-Type", "image/tiff");
          ("Content-Disposition",
           ("inline; filename=" ++ String JsString.dquote "foo.tif"
            ++ String JsString.dquote EmptyString)%string)];
       body := Piped Sample.broken |}.
Proof. reflexivity. Qed.

Example decode_object :
  Nest.run (Sample.answering Sample.full_page Sample.object) Sample.decoder
           (Nest.GetGeoTIFF Sample.windows_key)
  = {| trace :=
         [Logged ConsoleLog
                 "Fetching GeoTIFF from S3 with key: collection02/foo.tif"
                 NoDetail;
          Sent (get_command "collection02/foo.tif");
          Logged ConsoleLog "Retrieved Buffer:"
                 (BufferDetail (Buffer.from [Byte.x49; Byte.x49]));
          Decoder (FromArrayBuffer [Byte.x49; Byte.x49]);
          Decoder (GetImage 0);
          Decoder ReadRasters;
          Decoder GetWidth;
          Decoder GetHeight;
          Logged ConsoleLog "Raster data:"
                 (RasterDetail [[1; 2; 3; 4; 5; 6]%Z]);
          Logged ConsoleLog "GeoTIFF Data:"
                 (DataDetail [[1; 2; 3; 4; 5; 6]%Z] 3 2)];
       res := {| statusCode := 200; headers := [];
                 body := SentJson
                           (VObject
                              [("rasterData", VRaster [[1; 2; 3; 4; 5; 6]%Z]);
                               ("width", VNumber 3);
                               ("height", VNumber 2)]) |};
       node := Node.runtime |}.
Proof. reflexivity. Qed.

Example buffered_fetch_keeps_provider_error :
  fst (S3Service.getObject (Sample.rejecting Sample.no_such_key)
                           "collection02/foo.tif" Nest.boot)
  = inl Sample.no_such_key.
Proof. reflexivity. Qed.

Example list_last_page :
  option_map serialized_fields
    (match body (Nest.serve (Sample.answering Sample.last_page Sample.object)
                            Sample.decoder (Nest.GetList None None)) with
     | SentJson v => Some v
     | _ => None
     end)
  = Some [("isTruncated", VBool false)].
Proof. reflexivity. Qed.

Example download_with_line_feed :
  let r :=
    Nest.serve (Sample.answering Sample.full_page Sample.object)
               Sample.decoder (Nest.GetObject Sample.newline_key) in
  statusCode r = 500%Z
  /\ body r
     = SentJson
         (VObject
            [("message", VString "Error retrieving the object");
             ("error",
              VString
                ("Invalid character in header content ["
                   ++ String JsString.dquote "Content-Disposition"
                   ++ String JsString.dquote "]"))]).
Proof. split; reflexivity. Qed.

Example header_names_ignore_case :
  S3Controller.set_header "content-type" "image/tiff"
    [("Content-Type", "application/octet-stream")]
  = [("content-type", "image/tiff")].
Proof. reflexivity. Qed.
